(** * Ariadne agent tools: mode detection, override gateway, constraint
      audit, proposal pipeline and diagnostics

    A shallow embedding of the Python tools of the repository
    ([validate_agent.py] and [tools/*.py]) together with the properties
    their specification states about them.

    Conventions of the embedding.

    - A Python [str] is a [string]: the bytes of its UTF-8 encoding, so a
      literal of the source is the same literal here.  The tools only use
      ASCII needles, delimiters and keywords; [lower], [strip] and the
      slice [[:80]] are given on 7-bit text, where one byte is one
      character and where they are the Python built-ins.
    - Files are explicit state.  A file is missing, or it is present with
      a content and a flag telling whether [read_text] succeeds (the
      source handles [OSError] on reads).  The clock, the environment
      variables and the process information are inputs of each call.
    - A Python exception that the source raises itself is a value of
      [exn] carried by [result]. *)

From Stdlib Require Import String Ascii List ZArith QArith Bool Arith.
Import ListNotations.
Close Scope Q_scope.
Open Scope string_scope.
Set Warnings "-register-all".

(* ================================================================== *)
(** * Text: the built-in string operations the tools rely on            *)
(* ================================================================== *)

Module Text.

(** [needle in hay] of Python: substring containment. *)
Fixpoint contains (needle hay : string) : bool :=
  String.prefix needle hay
  || match hay with
     | EmptyString => false
     | String _ rest => contains needle rest
     end.

(** [any(kw in hay for kw in needles)], also the shape of a [for] loop
    that returns at the first needle found. *)
Definition any_in (needles : list string) (hay : string) : bool :=
  existsb (fun kw => contains kw hay) needles.

Definition is_upper (c : ascii) : bool :=
  Ascii.leb "A" c && Ascii.leb c "Z".

Definition lower_char (c : ascii) : ascii :=
  if is_upper c then ascii_of_nat (nat_of_ascii c + 32)%nat else c.

(** [s.lower()]. *)
Fixpoint lower (s : string) : string :=
  match s with
  | EmptyString => EmptyString
  | String c rest => String (lower_char c) (lower rest)
  end.

(** The characters [str.strip()] removes: tab, line feed, vertical tab,
    form feed, carriage return, the four separators 28..31 and space. *)
Definition is_space (c : ascii) : bool :=
  let n := nat_of_ascii c in
  (((9 <=? n) && (n <=? 13)) || ((28 <=? n) && (n <=? 32)))%nat.

Fixpoint lstrip (s : string) : string :=
  match s with
  | EmptyString => EmptyString
  | String c rest => if is_space c then lstrip rest else s
  end.

(** Strips the right end: a character is dropped when it is a space and
    everything after it has been dropped. *)
Fixpoint rstrip (s : string) : string :=
  match s with
  | EmptyString => EmptyString
  | String c rest =>
      match rstrip rest with
      | EmptyString => if is_space c then EmptyString else String c EmptyString
      | kept => String c kept
      end
  end.

(** [s.strip()]. *)
Definition strip (s : string) : string := rstrip (lstrip s).

(** [s[:n]]. *)
Definition take (n : nat) (s : string) : string := String.substring 0 n s.

(** Python truthiness of a [str]: non-empty. *)
Definition nonempty (s : string) : bool :=
  match s with EmptyString => false | String _ _ => true end.

(** [s in xs] for a list, tuple or frozenset of strings. *)
Definition mem (s : string) (xs : list string) : bool :=
  existsb (String.eqb s) xs.

(** [str(n)] for a non-negative integer. *)
Definition digit (n : nat) : ascii := ascii_of_nat (48 + n mod 10)%nat.

Fixpoint decimal_aux (fuel n : nat) (acc : string) : string :=
  match fuel with
  | O => acc
  | S fuel' =>
      let acc' := String (digit n) acc in
      if (n <? 10)%nat then acc' else decimal_aux fuel' (n / 10)%nat acc'
  end.

Definition decimal (n : nat) : string := decimal_aux (S n) n EmptyString.

(** The line feed, written [\n] in the source. *)
Definition LF : string := String (ascii_of_nat 10) EmptyString.

(** [s.endswith(suffix)]. *)
Definition endswith (suffix s : string) : bool :=
  String.eqb suffix
    (String.substring (String.length s - String.length suffix)
                      (String.length suffix) s)
  && (String.length suffix <=? String.length s)%nat.

(** [sorted(xs)] on strings: insertion into an ordered list. *)
Fixpoint insert_sorted (x : string) (xs : list string) : list string :=
  match xs with
  | [] => [x]
  | y :: rest => if String.leb x y then x :: xs else y :: insert_sorted x rest
  end.

Definition sorted (xs : list string) : list string :=
  fold_right insert_sorted [] xs.

Definition hex2 (n : nat) : string :=
  let d k := if (k <? 10)%nat then ascii_of_nat (48 + k) else ascii_of_nat (87 + k) in
  String (d (n / 16)%nat) (String (d (n mod 16)%nat) EmptyString).

(** [repr(s)]: single quotes unless the text has a single quote and no
    double quote; the quote and the backslash are escaped, and so are
    the control characters. *)
Definition repr_char (quote c : ascii) : string :=
  let n := nat_of_ascii c in
  if Ascii.eqb c quote || Ascii.eqb c "\" then String "\" (String c EmptyString)
  else if (n =? 9)%nat then "\t"
  else if (n =? 10)%nat then "\n"
  else if (n =? 13)%nat then "\r"
  else if (n <? 32)%nat || (n =? 127)%nat then "\x" ++ hex2 n
  else String c EmptyString.

Fixpoint repr_body (quote : ascii) (s : string) : string :=
  match s with
  | EmptyString => EmptyString
  | String c rest => repr_char quote c ++ repr_body quote rest
  end.

Definition DQUOTE : ascii := ascii_of_nat 34.

Definition repr (s : string) : string :=
  let quote : ascii :=
    if contains "'" s && negb (contains (String DQUOTE EmptyString) s)
    then DQUOTE else "'"%char in
  String quote (repr_body quote s) ++ String quote EmptyString.

(** [repr] of a list whose items are already rendered. *)
Definition repr_list (items : list string) : string :=
  "[" ++ String.concat ", " items ++ "]".

End Text.

(* ================================================================== *)
(** * hashlib.sha256: the digest the override gateway compares          *)
(* ================================================================== *)

Module SHA256.

Local Open Scope Z_scope.

(** 32-bit words are [Z] with the wrap-around written out. *)
Definition wrap (x : Z) : Z := Z.land x 0xffffffff.

Definition plus (x y : Z) : Z := wrap (x + y).

Definition rotr (n x : Z) : Z :=
  Z.lor (Z.shiftr x n) (wrap (Z.shiftl x (32 - n))).

Definition choose (x y z : Z) : Z :=
  Z.lxor (Z.land x y) (Z.land (Z.lxor x 0xffffffff) z).

Definition majority (x y z : Z) : Z :=
  Z.lxor (Z.lxor (Z.land x y) (Z.land x z)) (Z.land y z).

Definition big_sigma0 (x : Z) : Z :=
  Z.lxor (Z.lxor (rotr 2 x) (rotr 13 x)) (rotr 22 x).

Definition big_sigma1 (x : Z) : Z :=
  Z.lxor (Z.lxor (rotr 6 x) (rotr 11 x)) (rotr 25 x).

Definition small_sigma0 (x : Z) : Z :=
  Z.lxor (Z.lxor (rotr 7 x) (rotr 18 x)) (Z.shiftr x 3).

Definition small_sigma1 (x : Z) : Z :=
  Z.lxor (Z.lxor (rotr 17 x) (rotr 19 x)) (Z.shiftr x 10).

(** The first sixty-four primes; the constants of the hash are read
    off their square and cube roots. *)
Definition primes : list Z :=
  [ 2; 3; 5; 7; 11; 13; 17; 19; 23; 29; 31; 37; 41; 43; 47; 53;
    59; 61; 67; 71; 73; 79; 83; 89; 97; 101; 103; 107; 109; 113;
    127; 131; 137; 139; 149; 151; 157; 163; 167; 173; 179; 181;
    191; 193; 197; 199; 211; 223; 227; 229; 233; 239; 241; 251;
    257; 263; 269; 271; 277; 281; 283; 293; 307; 311 ].

(** The integer cube root by bisection: the largest [r] in [lo, hi)
    whose cube is at most [target], after enough halvings. *)
Fixpoint cube_root_between (halvings : nat) (target lo hi : Z) : Z :=
  match halvings with
  | O => lo
  | S k =>
      let mid := (lo + hi) / 2 in
      if mid * mid * mid <=? target
      then cube_root_between k target mid hi
      else cube_root_between k target lo mid
  end.

(** The first 32 bits of the fractional part of the cube root of [p]. *)
Definition cube_root_fraction (p : Z) : Z :=
  wrap (cube_root_between 40 (Z.shiftl p 96) 0 (Z.shiftl 1 36)).

(** The first 32 bits of the fractional part of the square root of [p]. *)
Definition square_root_fraction (p : Z) : Z :=
  wrap (Z.sqrt (Z.shiftl p 64)).

Definition round_constants : list Z := map cube_root_fraction primes.

Definition initial_hash : list Z := map square_root_fraction (firstn 8 primes).

(** [token.encode()]: the bytes of the text. *)
Definition encode (s : string) : list Z :=
  map (fun c => Z.of_nat (nat_of_ascii c)) (list_ascii_of_string s).

(** [count] bytes of [v], most significant first. *)
Fixpoint big_endian (count : nat) (v : Z) : list Z :=
  match count with
  | O => []
  | S k => Z.land (Z.shiftr v (8 * Z.of_nat k)) 0xff :: big_endian k v
  end.

(** The message, one bit, zeros up to 56 modulo 64, the bit length. *)
Definition pad (msg : list Z) : list Z :=
  let len := Z.of_nat (List.length msg) in
  msg ++ [0x80] ++ repeat 0 (Z.to_nat ((55 - len) mod 64))
      ++ big_endian 8 (8 * len).

Fixpoint words_of (bytes : list Z) : list Z :=
  match bytes with
  | b3 :: b2 :: b1 :: b0 :: rest =>
      (Z.shiftl b3 24 + Z.shiftl b2 16 + Z.shiftl b1 8 + b0) :: words_of rest
  | _ => []
  end.

Definition word_at (w : list Z) (i : nat) : Z := nth i w 0.

(** Extends a schedule by [more] words, each from four earlier ones. *)
Fixpoint schedule (more : nat) (w : list Z) : list Z :=
  match more with
  | O => w
  | S k =>
      let t := List.length w in
      let next :=
        plus (plus (small_sigma1 (word_at w (t - 2))) (word_at w (t - 7)))
             (plus (small_sigma0 (word_at w (t - 15))) (word_at w (t - 16))) in
      schedule k (w ++ [next])
  end.

Record registers : Type := Registers
  { ra : Z; rb : Z; rc : Z; rd : Z; re : Z; rf : Z; rg : Z; rh : Z }.

Definition round (r : registers) (kw : Z * Z) : registers :=
  let t1 :=
    plus (plus (plus (rh r) (big_sigma1 (re r)))
               (plus (choose (re r) (rf r) (rg r)) (fst kw))) (snd kw) in
  let t2 := plus (big_sigma0 (ra r)) (majority (ra r) (rb r) (rc r)) in
  Registers (plus t1 t2) (ra r) (rb r) (rc r) (plus (rd r) t1)
            (re r) (rf r) (rg r).

Definition load (h : list Z) : registers :=
  Registers (word_at h 0) (word_at h 1) (word_at h 2) (word_at h 3)
            (word_at h 4) (word_at h 5) (word_at h 6) (word_at h 7).

Definition unload (r : registers) : list Z :=
  [ ra r; rb r; rc r; rd r; re r; rf r; rg r; rh r ].

(** One 16-word block folded into the running hash. *)
Definition compress (h : list Z) (block : list Z) : list Z :=
  let w := schedule 48 block in
  let r := fold_left round (combine round_constants w) (load h) in
  map (fun p => plus (fst p) (snd p)) (combine h (unload r)).

Fixpoint blocks (count : nat) (h words : list Z) : list Z :=
  match count with
  | O => h
  | S k => blocks k (compress h (firstn 16 words)) (skipn 16 words)
  end.

Definition digest (msg : list Z) : list Z :=
  let words := words_of (pad msg) in
  blocks (List.length words / 16) initial_hash words.

Definition hex_digit (v : Z) : ascii :=
  if v <? 10 then ascii_of_nat (Z.to_nat (48 + v))
  else ascii_of_nat (Z.to_nat (87 + v)).

Fixpoint hex_word (nibbles : nat) (v : Z) : string :=
  match nibbles with
  | O => EmptyString
  | S k =>
      String (hex_digit (Z.land (Z.shiftr v (4 * Z.of_nat k)) 0xf))
             (hex_word k v)
  end.

(** [hashlib.sha256(token.encode()).hexdigest()]. *)
Definition hexdigest (token : string) : string :=
  String.concat "" (map (hex_word 8) (digest (encode token))).

End SHA256.

(* ================================================================== *)
(** * validate_agent.py: the mode-switch rules                          *)
(* ================================================================== *)

Module ModeTransitions.

Definition OPERATIONAL : string := "operational".
Definition COMPANION : string := "companion".
Definition ADMINISTRATIVE : string := "administrative".

Definition COMPANION_PHRASES : list string :=
  [ "ariadne, companion mode"; "switch to companion" ].

Definition ADMINISTRATIVE_PHRASES : list string :=
  [ "enter administrative mode"; "ariadne, admin mode" ].

Definition TASK_INDICATORS : list string :=
  [ "code"; "debug"; "analyze"; "plan"; "budget";
    "architecture"; "refactor"; "profile"; "optimize" ].

(** [detect_mode_switch(text, current)]: the two [for] loops return at
    the first phrase found, then the [any] over the task indicators. *)
Definition detect_mode_switch (text current : string) : string :=
  let lower := Text.lower text in
  if Text.any_in ADMINISTRATIVE_PHRASES lower then ADMINISTRATIVE
  else if Text.any_in COMPANION_PHRASES lower then COMPANION
  else if Text.any_in TASK_INDICATORS lower then OPERATIONAL
  else current.

End ModeTransitions.

(* ================================================================== *)
(** * The workspace: files, environment and results                     *)
(* ================================================================== *)

Module Workspace.

(** The exceptions the tools raise or handle. *)
Inductive exn : Type :=
| OSError
| ValueError (msg : string).

Inductive result (A : Type) : Type :=
| Ok (a : A)
| Raise (e : exn).

Arguments Ok {A} a.
Arguments Raise {A} e.

(** A path of the workspace: nothing there, or a file with its content
    and whether it can be read. *)
Inductive file : Type :=
| Missing
| Present (readable : bool) (content : string).

(** [path.exists()]. *)
Definition exists_ (f : file) : bool :=
  match f with Missing => false | Present _ _ => true end.

(** [path.stat().st_size]. *)
Definition st_size (f : file) : nat :=
  match f with Missing => 0 | Present _ content => String.length content end.

(** [path.read_text(encoding="utf-8")]. *)
Definition read_text (f : file) : result string :=
  match f with
  | Present true content => Ok content
  | _ => Raise OSError
  end.

(** What the file holds, the empty text when there is no file. *)
Definition content_of (f : file) : string :=
  match f with Missing => EmptyString | Present _ content => content end.

(** [open(path, "a").write(text)]: creates the file when it is missing
    and writes at its end otherwise. *)
Definition append_text (f : file) (text : string) : file :=
  match f with
  | Missing => Present true text
  | Present readable content => Present readable (content ++ text)
  end.

(** The paths under [workspace_dir] the tools look at, and the names
    found in the [ariadne/proposals] and tool directories. *)
Record workspace : Type := Build_workspace
  { agents_ariadne_yaml : file;
    ai_ariadne_guardrails_ts : file;
    ariadne_memory_notes_md : file;
    ariadne_proposals : option (list string);
    tools_dir : list string }.

Definition set_notes (ws : workspace) (f : file) : workspace :=
  Build_workspace (agents_ariadne_yaml ws) (ai_ariadne_guardrails_ts ws) f
                  (ariadne_proposals ws) (tools_dir ws).

(** [os.environ]: the variables set, in order of definition. *)
Definition environ : Type := list (string * string).

(** [os.environ.get(name, default)]. *)
Fixpoint environ_get (env : environ) (name default : string) : string :=
  match env with
  | [] => default
  | (k, v) :: rest => if String.eqb k name then v else environ_get rest name default
  end.

End Workspace.

(* ================================================================== *)
(** * tools/state_override.py                                           *)
(* ================================================================== *)

Module StateOverrideTool.

Import Workspace.

Definition _TOKEN_HASH_ENV_VAR : string := "ARIADNE_ADMIN_TOKEN_HASH".

Definition _VALID_STATES : list string :=
  [ "operational"; "companion"; "administrative" ].

(** The dict [run] returns. *)
Record response : Type := Build_response
  { status : string; message : string }.

(** [_validate_token]: fail-closed without a hash, else the digest of
    the token against the lower-cased hash ([hmac.compare_digest] is an
    equality test). *)
Definition _validate_token (env : environ) (token : string) : bool :=
  let expected_hash := environ_get env _TOKEN_HASH_ENV_VAR "" in
  if negb (Text.nonempty expected_hash) then false
  else
    let supplied_hash := SHA256.hexdigest token in
    String.eqb supplied_hash (Text.lower expected_hash).

(** The text [_audit] writes for one entry; [ts] is the clock reading
    [datetime.now(timezone.utc).isoformat()]. *)
Definition audit_entry (ts event target_state outcome : string) : string :=
  Text.LF ++ Text.LF ++ "---" ++ Text.LF
  ++ "**" ++ ts ++ "** [admin-audit]" ++ Text.LF ++ Text.LF
  ++ "EVENT: " ++ event ++ "  " ++ Text.LF
  ++ "TARGET_STATE: " ++ target_state ++ "  " ++ Text.LF
  ++ "OUTCOME: " ++ outcome ++ Text.LF.

(** [_audit]: appends one entry to [ariadne/memory/notes.md]. *)
Definition _audit (ts : string) (ws : workspace)
    (event target_state outcome : string) : workspace :=
  set_notes ws
    (append_text (ariadne_memory_notes_md ws)
                 (audit_entry ts event target_state outcome)).

(** [run(target_state, auth_token)], with the environment and the clock
    it reads and the workspace it leaves. *)
Definition run (env : environ) (ts : string) (ws : workspace)
    (target_state auth_token : string) : response * workspace :=
  if negb (Text.mem target_state _VALID_STATES) then
    (Build_response "error"
       ("Unknown state '" ++ target_state ++ "'. Valid states: "
        ++ Text.repr_list (map Text.repr (Text.sorted _VALID_STATES))),
     ws)
  else if negb (_validate_token env auth_token) then
    (Build_response "error" "Authentication failed. Override rejected.",
     _audit ts ws "OVERRIDE_REJECTED" target_state "invalid token")
  else
    (Build_response "ok"
       ("State override to '" ++ target_state ++ "' authorized and logged."),
     _audit ts ws "OVERRIDE_APPLIED" target_state "authorized").

End StateOverrideTool.

(* ================================================================== *)
(** * tools/constraint_audit.py                                         *)
(* ================================================================== *)

Module ConstraintAuditTool.

Import Workspace.

Definition _DECLARED_CONSTRAINTS : list string :=
  [ "no_cross_state_context_leakage";
    "no_emotional_output_in_operational_state";
    "no_system_commands_outside_administrative_state";
    "no_explicit_content" ].

Definition _VERIFIABLE_VIA_GUARDRAILS : list string :=
  [ "no_explicit_content" ].

(** One item of the [constraints] list of the report. *)
Record entry : Type := Build_entry
  { constraint : string; status : string }.

Record report : Type := Build_report
  { timestamp : string;
    constraints : list entry;
    drift_detected : bool;
    summary : string }.

(** [_check_constraint]: the status string of a single constraint. *)
Definition _check_constraint (ws : workspace) (constraint : string)
    (agent_yaml_exists guardrails_exists : bool) : string :=
  if negb agent_yaml_exists then
    "unverifiable — agents/ariadne.yaml missing"
  else if Text.mem constraint _VERIFIABLE_VIA_GUARDRAILS then
    if negb guardrails_exists then
      "unverifiable — guardrails.ts missing"
    else
      match read_text (ai_ariadne_guardrails_ts ws) with
      | Ok content =>
          if Text.contains "BANNED_PATTERNS" content then "active"
          else "unverifiable — BANNED_PATTERNS not found in guardrails.ts"
      | Raise _ => "unverifiable — could not read guardrails.ts"
      end
  else
    match read_text (agents_ariadne_yaml ws) with
    | Ok content =>
        if Text.contains constraint content then "active"
        else "drift — '" ++ constraint ++ "' not found in agents/ariadne.yaml"
    | Raise _ => "unverifiable — could not read agents/ariadne.yaml"
    end.

(** The body of the [for] loop of [run]: one more record, and the drift
    flag raised when the status is not ["active"]. *)
Definition audit_step (ws : workspace) (agent_yaml_exists guardrails_exists : bool)
    (acc : list entry * bool) (constraint : string) : list entry * bool :=
  let status := _check_constraint ws constraint agent_yaml_exists guardrails_exists in
  ((fst acc ++ [Build_entry constraint status])%list,
   if negb (String.eqb status "active") then true else snd acc).

(** [sum(1 for r in results if r['status'] != 'active')]. *)
Definition attention_count (results : list entry) : nat :=
  List.length (filter (fun r => negb (String.eqb (status r) "active")) results).

(** [run()]; [now] is the clock reading. *)
Definition run (now : string) (ws : workspace) : report :=
  let agent_yaml_exists := exists_ (agents_ariadne_yaml ws) in
  let guardrails_exists := exists_ (ai_ariadne_guardrails_ts ws) in
  let '(results, drift) :=
    fold_left (audit_step ws agent_yaml_exists guardrails_exists)
              _DECLARED_CONSTRAINTS ([], false) in
  let summary :=
    if negb drift then "All constraints active."
    else Text.decimal (attention_count results)
         ++ " constraint(s) require attention." in
  Build_report now results drift summary.

End ConstraintAuditTool.

(* ================================================================== *)
(** * tools/system_diagnostics.py                                       *)
(* ================================================================== *)

Module SystemDiagnosticsTool.

Import Workspace.

Definition _EXPECTED_TOOLS : list string :=
  [ "memory_query"; "proposal_generator"; "validation_workflow";
    "gentle_suggestion"; "system_diagnostics"; "state_override";
    "constraint_audit" ].

Definition _DECLARED_CONSTRAINTS : list string :=
  [ "no_cross_state_context_leakage";
    "no_emotional_output_in_operational_state";
    "no_system_commands_outside_administrative_state";
    "no_explicit_content" ].

Record memory_stats : Type := Build_memory_stats
  { notes_file : string;
    notes_exists : bool;
    notes_bytes : nat;
    proposals_count : nat }.

(** The dict [run] returns; the two inner dicts keep their insertion
    order. *)
Record snapshot : Type := Build_snapshot
  { timestamp : string;
    state_stability : string;
    memory : memory_stats;
    tools : list (string * string);
    constraints : list (string * string);
    uptime_s : Q }.

(** [_memory_stats]; [root] is [str(workspace_dir)] with its final
    separator. *)
Definition _memory_stats (root : string) (ws : workspace) : memory_stats :=
  let notes := ariadne_memory_notes_md ws in
  Build_memory_stats
    (root ++ "ariadne/memory/notes.md")
    (exists_ notes)
    (if exists_ notes then st_size notes else 0)
    (match ariadne_proposals ws with
     | Some names => List.length (filter (Text.endswith ".md") names)
     | None => 0
     end).

(** [_tool_availability]. *)
Definition _tool_availability (ws : workspace) : list (string * string) :=
  map (fun tool_name =>
         (tool_name,
          if Text.mem (tool_name ++ ".py") (tools_dir ws)
          then "available" else "missing"))
      _EXPECTED_TOOLS.

(** [_constraint_status]. *)
Definition _constraint_status : list (string * string) :=
  map (fun constraint => (constraint, "active")) _DECLARED_CONSTRAINTS.

(** [_uptime]: the seconds computed from [/proc], [-1.0] when any step
    of that computation raises. *)
Definition _uptime (proc_uptime : option Q) : Q :=
  match proc_uptime with
  | Some seconds => seconds
  | None => (-1)%Q
  end.

(** [run()]; [now] is the clock reading, [proc_uptime] what the reads of
    [/proc] give. *)
Definition run (now root : string) (proc_uptime : option Q)
    (ws : workspace) : snapshot :=
  Build_snapshot now "stable" (_memory_stats root ws)
                 (_tool_availability ws) _constraint_status
                 (_uptime proc_uptime).

End SystemDiagnosticsTool.

(* ================================================================== *)
(** * Python values: what a proposal dict may hold                      *)
(* ================================================================== *)

Module Py.

(** JSON-serialisable values; a dict is the list of its items in
    insertion order, and a lookup takes the first item with the key. *)
Inductive value : Type :=
| VNone
| VBool (b : bool)
| VInt (n : Z)
| VStr (s : string)
| VList (items : list value)
| VDict (fields : list (string * value)).

Definition dict : Type := list (string * value).

(** The classes the validation schema names. *)
Inductive pytype : Type := Tstr | Tlist | Tdict.

(** [expected_type.__name__]. *)
Definition class_name (t : pytype) : string :=
  match t with Tstr => "str" | Tlist => "list" | Tdict => "dict" end.

(** [type(v).__name__]. *)
Definition type_name (v : value) : string :=
  match v with
  | VNone => "NoneType"
  | VBool _ => "bool"
  | VInt _ => "int"
  | VStr _ => "str"
  | VList _ => "list"
  | VDict _ => "dict"
  end.

(** [isinstance(v, t)]. *)
Definition isinstance (v : value) (t : pytype) : bool :=
  match v, t with
  | VStr _, Tstr => true
  | VList _, Tlist => true
  | VDict _, Tdict => true
  | _, _ => false
  end.

(** Truth value of [v], as [not v] tests it. *)
Definition truthy (v : value) : bool :=
  match v with
  | VNone => false
  | VBool b => b
  | VInt n => negb (Z.eqb n 0)
  | VStr s => Text.nonempty s
  | VList items => match items with [] => false | _ :: _ => true end
  | VDict fields => match fields with [] => false | _ :: _ => true end
  end.

(** [d.get(key)], [None] of Rocq standing for the absent key. *)
Fixpoint lookup (d : dict) (key : string) : option value :=
  match d with
  | [] => None
  | (k, v) :: rest => if String.eqb k key then Some v else lookup rest key
  end.

(** [key in d]. *)
Definition has_key (d : dict) (key : string) : bool :=
  match lookup d key with Some _ => true | None => false end.

(** [d.get(key, default)]. *)
Definition get (d : dict) (key : string) (default : value) : value :=
  match lookup d key with Some v => v | None => default end.

(** [str(n)] for an integer. *)
Definition int_str (n : Z) : string :=
  if (n <? 0)%Z then "-" ++ Text.decimal (Z.to_nat (- n))
  else Text.decimal (Z.to_nat n).

(** [repr(v)]. *)
Fixpoint repr (v : value) : string :=
  match v with
  | VNone => "None"
  | VBool true => "True"
  | VBool false => "False"
  | VInt n => int_str n
  | VStr s => Text.repr s
  | VList items => "[" ++ String.concat ", " (map repr items) ++ "]"
  | VDict fields =>
      "{" ++ String.concat ", "
               (map (fun kv => match kv with
                               | (k, x) => Text.repr k ++ ": " ++ repr x
                               end) fields)
          ++ "}"
  end.

(** [str(v)], what an f-string field prints. *)
Definition str (v : value) : string :=
  match v with VStr s => s | _ => repr v end.

(** [log.append(msg)] on a list of messages. *)
Definition append (log : list string) (msg : string) : list string :=
  (log ++ [msg])%list.

(** A list of [str] as a value. *)
Definition str_list (xs : list string) : value := VList (map VStr xs).

End Py.

(* ================================================================== *)
(** * tools/proposal_generator.py                                       *)
(* ================================================================== *)

Module ProposalGeneratorTool.

Import Workspace Py.

(** The separators of [re.split(r"[.!?\n]", ...)]. *)
Definition is_sentence_end (c : ascii) : bool :=
  Ascii.eqb c "." || Ascii.eqb c "!" || Ascii.eqb c "?"
  || Ascii.eqb c (ascii_of_nat 10).

(** [re.split] on a class of single characters: the pieces between the
    separators, at least one. *)
Fixpoint re_split (is_sep : ascii -> bool) (s : string) : list string :=
  match s with
  | EmptyString => [EmptyString]
  | String c rest =>
      if is_sep c then EmptyString :: re_split is_sep rest
      else match re_split is_sep rest with
           | piece :: others => String c piece :: others
           | [] => [String c EmptyString]
           end
  end.

(** [_extract_title]. *)
Definition _extract_title (description : string) : string :=
  let first_sentence :=
    Text.strip (hd EmptyString (re_split is_sentence_end description)) in
  if Text.nonempty first_sentence then Text.take 80 first_sentence
  else Text.take 80 description.

(** [_build_phases]: the same three phases for every description. *)
Definition _build_phases (description : string) : list dict :=
  [ [ ("name", VStr "Analysis");
      ("steps", str_list
         [ "Review task description and clarify scope.";
           "Identify dependencies and constraints.";
           "Document assumptions." ]);
      ("outputs", str_list [ "scope_document" ]) ];
    [ ("name", VStr "Execution");
      ("steps", str_list
         [ "Implement the changes described in the task.";
           "Write or update tests covering new behaviour.";
           "Commit with a descriptive message." ]);
      ("outputs", str_list [ "implementation"; "tests" ]) ];
    [ ("name", VStr "Validation");
      ("steps", str_list
         [ "Run the relevant test suite.";
           "Confirm all validation gates pass.";
           "Peer-review or self-review the diff." ]);
      ("outputs", str_list [ "validation_report" ]) ] ].

(** [_infer_resources]: two resources always, one more per keyword
    group found in the lower-cased description. *)
Definition _infer_resources (description : string) : list string :=
  let resources := [ "repository_access"; "test_runner" ] in
  let lower := Text.lower description in
  let resources :=
    if Text.any_in [ "database"; "sqlite"; "postgres"; "mysql" ] lower
    then (resources ++ [ "database_access" ])%list else resources in
  let resources :=
    if Text.any_in [ "api"; "http"; "rest"; "endpoint" ] lower
    then (resources ++ [ "network_access" ])%list else resources in
  let resources :=
    if Text.any_in [ "file"; "read"; "write"; "disk" ] lower
    then (resources ++ [ "filesystem_access" ])%list else resources in
  resources.

(** [_build_validation_gates]. *)
Definition _build_validation_gates (title : string) : list string :=
  [ "All tests pass after implementing: " ++ title;
    "No regressions in existing test suite.";
    "Output matches expected schema.";
    "No security-policy violations detected." ].

(** [run(task_description)]; [now] is the clock reading. *)
Definition run (now task_description : string) : result dict :=
  if negb (Text.nonempty task_description)
     || negb (Text.nonempty (Text.strip task_description))
  then Raise (ValueError "task_description must not be empty")
  else
    let description := Text.strip task_description in
    let title := _extract_title description in
    Ok [ ("title", VStr title);
         ("phases", VList (map VDict (_build_phases description)));
         ("resources", str_list (_infer_resources description));
         ("validation_gates", str_list (_build_validation_gates title));
         ("generated_at", VStr now) ].

End ProposalGeneratorTool.

(* ================================================================== *)
(** * tools/validation_workflow.py                                      *)
(* ================================================================== *)

Module ValidationWorkflowTool.

Import Py.

Definition _REQUIRED_FIELDS : list (string * pytype) :=
  [ ("title", Tstr); ("phases", Tlist);
    ("resources", Tlist); ("validation_gates", Tlist) ].

Definition _PHASE_REQUIRED_KEYS : list string :=
  [ "name"; "steps"; "outputs" ].

Record report : Type := Build_report
  { valid : bool;
    errors : list string;
    warnings : list string;
    validated_at : string }.

(** The body of the loop of [_check_required_fields]: at most one error
    for the field. *)
Definition check_field (proposal : dict) (errors : list string)
    (entry : string * pytype) : list string :=
  let '(field, expected_type) := entry in
  match lookup proposal field with
  | None => append errors ("Missing required field: '" ++ field ++ "'")
  | Some v =>
      if negb (isinstance v expected_type) then
        append errors ("Field '" ++ field ++ "' must be "
                       ++ class_name expected_type ++ ", got " ++ type_name v)
      else if match expected_type with Tlist | Tdict => true | Tstr => false end
              && negb (truthy v) then
        append errors ("Field '" ++ field ++ "' must not be empty")
      else errors
  end.

(** [_check_required_fields]. *)
Definition _check_required_fields (proposal : dict) (errors : list string)
    : list string :=
  fold_left (check_field proposal) _REQUIRED_FIELDS errors.

(** [_PHASE_REQUIRED_KEYS - phase.keys()]. *)
Definition missing_keys (phase : dict) : list string :=
  filter (fun key => negb (has_key phase key)) _PHASE_REQUIRED_KEYS.

(** The body of the loop of [_check_phases] for the phase of index [i]. *)
Definition check_phase (i : nat) (phase : value)
    (acc : list string * list string) : list string * list string :=
  let '(errors, warnings) := acc in
  match phase with
  | VDict fields =>
      let missing := missing_keys fields in
      let errors :=
        match missing with
        | [] => errors
        | _ :: _ =>
            append errors
              ("Phase[" ++ Text.decimal i ++ "] missing keys: "
               ++ Text.repr_list (map Text.repr (Text.sorted missing)))
        end in
      let warnings :=
        if negb (truthy (get fields "steps" VNone)) then
          append warnings
            ("Phase[" ++ Text.decimal i ++ "] ('"
             ++ str (get fields "name" (VStr "?")) ++ "') has no steps")
        else warnings in
      (errors, warnings)
  | _ => (append errors ("Phase[" ++ Text.decimal i ++ "] must be a dict"),
          warnings)
  end.

(** [for i, phase in enumerate(phases)], from index [i]. *)
Fixpoint check_phases_from (i : nat) (phases : list value)
    (acc : list string * list string) : list string * list string :=
  match phases with
  | [] => acc
  | phase :: rest => check_phases_from (S i) rest (check_phase i phase acc)
  end.

(** [_check_phases]. *)
Definition _check_phases (phases : value) (errors warnings : list string)
    : list string * list string :=
  match phases with
  | VList items => check_phases_from 0 items (errors, warnings)
  | _ => (errors, warnings)
  end.

(** [_check_resources]. *)
Definition _check_resources (resources : value) (warnings : list string)
    : list string :=
  match resources with
  | VList [] =>
      append warnings "No resources listed; verify no dependencies are missing"
  | _ => warnings
  end.

(** [_check_validation_gates]. *)
Definition _check_validation_gates (gates : value) (warnings : list string)
    : list string :=
  match gates with
  | VList [] =>
      append warnings
        "No validation gates defined; consider adding test criteria"
  | _ => warnings
  end.

(** [run(proposal)]; [now] is the clock reading.  The two lists are
    threaded through the four checks in the order of the source. *)
Definition run (now : string) (proposal : dict) : report :=
  let errors := _check_required_fields proposal [] in
  let '(errors, warnings) :=
    _check_phases (get proposal "phases" (VList [])) errors [] in
  let warnings := _check_resources (get proposal "resources" (VList [])) warnings in
  let warnings :=
    _check_validation_gates (get proposal "validation_gates" (VList [])) warnings in
  Build_report (Nat.eqb (List.length errors) 0) errors warnings now.

End ValidationWorkflowTool.

(* ================================================================== *)
(** * validate_agent.py: the checks on tool files and mode transitions  *)
(* ================================================================== *)

Module ValidateAgent.

Import Workspace ModeTransitions.

(** The result of one check: its name, whether it passed, a detail. *)
Definition check_result : Type := (string * bool * string)%type.

Definition passed (r : check_result) : bool := snd (fst r).

(** The list [expected] of [validate_tool_files]. *)
Definition expected_tool_files : list string :=
  [ "memory_query.py"; "proposal_generator.py"; "validation_workflow.py";
    "gentle_suggestion.py"; "system_diagnostics.py"; "state_override.py";
    "constraint_audit.py" ].

(** [validate_tool_files()]; [tools_path] is [str(TOOLS_DIR)] with its
    final separator. *)
Definition validate_tool_files (tools_path : string) (ws : workspace)
    : list check_result :=
  map (fun filename =>
         let file_exists := Text.mem filename (tools_dir ws) in
         ("tool-file:" ++ filename,
          file_exists,
          if file_exists then "present"
          else "not found at " ++ tools_path ++ filename))
      expected_tool_files.

(** The table [cases] of [validate_mode_transitions]: description,
    input, current mode, expected mode. *)
Definition cases : list (string * string * string * string) :=
  [ ("companion activation phrase",
     "Ariadne, companion mode", OPERATIONAL, COMPANION);
    ("switch-to-companion phrase",
     "switch to companion", OPERATIONAL, COMPANION);
    ("task indicator 'debug' reverts to operational",
     "can you debug this function?", COMPANION, OPERATIONAL);
    ("task indicator 'analyze' reverts to operational",
     "please analyze the data", COMPANION, OPERATIONAL);
    ("no match retains current operational mode",
     "hello there", OPERATIONAL, OPERATIONAL);
    ("no match retains current companion mode",
     "how are you doing?", COMPANION, COMPANION);
    ("companion phrase takes precedence over task indicator",
     "ariadne, companion mode — then code something", OPERATIONAL, COMPANION);
    ("administrative activation phrase",
     "enter administrative mode", OPERATIONAL, ADMINISTRATIVE);
    ("admin shorthand phrase",
     "ariadne, admin mode", COMPANION, ADMINISTRATIVE);
    ("administrative phrase takes precedence over task indicator",
     "enter administrative mode and debug the logs",
     OPERATIONAL, ADMINISTRATIVE);
    ("no match retains current administrative mode",
     "show system status", ADMINISTRATIVE, ADMINISTRATIVE) ].

(** [validate_mode_transitions()]: one result per case. *)
Definition validate_mode_transitions : list check_result :=
  map (fun case =>
         let '(description, user_input, current, expected) := case in
         let got := detect_mode_switch user_input current in
         let ok := String.eqb got expected in
         ("mode-transition:" ++ description,
          ok,
          if negb ok then "got '" ++ got ++ "'" else "passed"))
      cases.


End ValidateAgent.

(* ================================================================== *)
(** * tools/memory_query.py                                             *)
(* ================================================================== *)

Module MemoryQueryTool.

Import Workspace.

(** What [index_path] points to: a directory, in which the notes are
    the file [notes.md], or anything else, taken for the notes file
    itself. *)
Inductive index_path : Type :=
| Directory (notes_md : file)
| NotDirectory (itself : file).

(** [_resolve_notes_file]. *)
Definition _resolve_notes_file (index : index_path) : file :=
  match index with
  | Directory notes_md => notes_md
  | NotDirectory itself => itself
  end.

(** [re.split] on a literal separator: the texts between its
    occurrences, found from the left and not overlapping.  [skip]
    counts the characters of a separator still to pass over. *)
Fixpoint split_skip (sep : string) (skip : nat) (s : string) : list string :=
  match s with
  | EmptyString => [EmptyString]
  | String c rest =>
      match skip with
      | S k => split_skip sep k rest
      | O =>
          if String.prefix sep s then
            EmptyString :: split_skip sep (String.length sep - 1) rest
          else
            match split_skip sep 0 rest with
            | piece :: others => String c piece :: others
            | [] => [String c EmptyString]
            end
      end
  end.

(** The separator written between the notes: a line of three dashes. *)
Definition separator : string := Text.LF ++ "---" ++ Text.LF.

(** [_search]: the stripped sections whose lower-cased text contains
    the query. *)
Definition _search (notes_file : file) (query : string) : list string :=
  match read_text notes_file with
  | Raise _ => []
  | Ok content =>
      let sections := split_skip separator 0 content in
      map Text.strip
          (filter (fun s => Text.contains query (Text.lower s)) sections)
  end.

(** [run(query, state)]. *)
Definition run (query state : string) (index : index_path) : list string :=
  if negb (Text.nonempty query) || negb (Text.nonempty (Text.strip query))
  then []
  else
    let notes_file := _resolve_notes_file index in
    if negb (exists_ notes_file) then []
    else _search notes_file (Text.lower (Text.strip query)).

End MemoryQueryTool.

(* ================================================================== *)
(** * The vocabulary of the specification                               *)
(* ================================================================== *)

Module Spec.

Import Workspace.

(** Text made of the characters [strip] removes. *)
Fixpoint whitespace_only (s : string) : bool :=
  match s with
  | EmptyString => true
  | String c rest => Text.is_space c && whitespace_only rest
  end.

(** The lower-cased text contains one of the phrases. *)
Definition mentions (phrases : list string) (text : string) : Prop :=
  exists phrase,
    In phrase phrases /\ Text.contains phrase (Text.lower text) = true.

(** The audit log: the text of [ariadne/memory/notes.md], empty as long
    as the file does not exist. *)
Definition log (ws : workspace) : string :=
  content_of (ariadne_memory_notes_md ws).

(** The reference digest of the process configuration: the value of
    [ARIADNE_ADMIN_TOKEN_HASH], empty when the variable is not set. *)
Definition reference_digest (env : environ) : string :=
  environ_get env StateOverrideTool._TOKEN_HASH_ENV_VAR "".

(** A reference digest is configured and the SHA-256 digest of the
    credential is that reference, whose hex digits may be in upper
    case. *)
Definition digest_matches (env : environ) (credential : string) : Prop :=
  reference_digest env <> EmptyString
  /\ SHA256.hexdigest credential = Text.lower (reference_digest env).

(** One call to the gateway, with the environment and the clock it
    runs in. *)
Record call : Type := Build_call
  { call_env : environ;
    call_ts : string;
    call_target : string;
    call_token : string }.

(** The workspace a call leaves. *)
Definition after_call (ws : workspace) (c : call) : workspace :=
  snd (StateOverrideTool.run (call_env c) (call_ts c) ws
         (call_target c) (call_token c)).

(** The workspace a sequence of calls leaves. *)
Definition after_calls (calls : list call) (ws : workspace) : workspace :=
  fold_left after_call calls ws.

(** A workspace directory in which nothing exists yet. *)
Definition empty_workspace : workspace :=
  Build_workspace Missing Missing Missing None [].

(** The environment of the unit tests: the variable holds the digest of
    [zeroclaw_test_token]. *)
Definition test_environ : environ :=
  [ (StateOverrideTool._TOKEN_HASH_ENV_VAR,
     "988249fa2070a4947984c1673dced34ef027201d40b6b0cbabea0b4b0ae474e5") ].

(** The status is not ["active"]: the test of the loop of the audit. *)
Definition needs_attention (ws : workspace) (yaml_exists guard_exists : bool)
    (name : string) : bool :=
  negb (String.eqb
          (ConstraintAuditTool._check_constraint ws name yaml_exists guard_exists)
          "active").

(** The per-constraint statuses of an audit report, as pairs in the
    order of the report: the form the diagnostics snapshot gives its
    [constraints] section. *)
Definition audit_statuses (r : ConstraintAuditTool.report)
    : list (string * string) :=
  map (fun e => (ConstraintAuditTool.constraint e, ConstraintAuditTool.status e))
      (ConstraintAuditTool.constraints r).

(** A configuration text with the name of every declared constraint. *)
Definition full_yaml : string :=
  String.concat Text.LF
    ("constraints:"
     :: map (fun name => "  - " ++ name)
            ConstraintAuditTool._DECLARED_CONSTRAINTS).

(** A workspace with that configuration and no [guardrails.ts]. *)
Definition yaml_only_workspace : workspace :=
  Build_workspace (Present true full_yaml) Missing Missing None [].

(** The same with a [guardrails.ts] that declares the banned patterns. *)
Definition compliant_workspace : workspace :=
  Build_workspace (Present true full_yaml)
                  (Present true "export const BANNED_PATTERNS = [];")
                  Missing None [].

(** A phase entry that carries the three required keys. *)
Definition well_formed_phase (phase : Py.value) : Prop :=
  exists fields,
    phase = Py.VDict fields
    /\ Forall (fun key => Py.has_key fields key = true)
              ValidationWorkflowTool._PHASE_REQUIRED_KEYS.

(** The two messages about an empty list field. *)
Definition empty_field_error (field : string) (items : list Py.value)
    : list string :=
  match items with
  | [] => [ "Field '" ++ field ++ "' must not be empty" ]
  | _ :: _ => []
  end.

Definition empty_list_warning (message : string) (items : list Py.value)
    : list string :=
  match items with
  | [] => [ message ]
  | _ :: _ => []
  end.

Definition no_resources_warning : string :=
  "No resources listed; verify no dependencies are missing".

Definition no_gates_warning : string :=
  "No validation gates defined; consider adding test criteria".

(** The valid proposal of the unit tests. *)
Definition valid_proposal : Py.dict :=
  [ ("title", Py.VStr "Test proposal");
    ("phases",
     Py.VList
       [ Py.VDict [ ("name", Py.VStr "Analysis");
                    ("steps", Py.str_list [ "Identify scope" ]);
                    ("outputs", Py.str_list [ "scope_doc" ]) ] ]);
    ("resources", Py.str_list [ "repository_access" ]);
    ("validation_gates", Py.str_list [ "All tests pass" ]) ].

(** The same proposal with no resource listed. *)
Definition proposal_without_resources : Py.dict :=
  [ ("title", Py.VStr "Test proposal");
    ("phases",
     Py.VList
       [ Py.VDict [ ("name", Py.VStr "Analysis");
                    ("steps", Py.str_list [ "Identify scope" ]);
                    ("outputs", Py.str_list [ "scope_doc" ]) ] ]);
    ("resources", Py.VList []);
    ("validation_gates", Py.str_list [ "All tests pass" ]) ].


(** [s.upper()] on 7-bit text. *)
Definition upper_char (c : ascii) : ascii :=
  if Ascii.leb "a" c && Ascii.leb c "z"
  then ascii_of_nat (nat_of_ascii c - 32)%nat else c.

Fixpoint upper (s : string) : string :=
  match s with
  | EmptyString => EmptyString
  | String c rest => String (upper_char c) (upper rest)
  end.

(** Every character of the text passes the test. *)
Fixpoint all_chars (p : ascii -> bool) (s : string) : bool :=
  match s with
  | EmptyString => true
  | String c rest => p c && all_chars p rest
  end.

(** The digits of a lower-case hexadecimal number. *)
Definition is_lower_hex (c : ascii) : bool :=
  (Ascii.leb "0" c && Ascii.leb c "9") || (Ascii.leb "a" c && Ascii.leb c "f").

(** The text does not start with a character that [strip] removes. *)
Definition starts_clean (s : string) : bool :=
  match s with
  | EmptyString => true
  | String c _ => negb (Text.is_space c)
  end.







(** A notes file with two entries, as the unit tests write it. *)
Definition test_notes : Workspace.file :=
  Present true
    ("entry about database migrations" ++ Text.LF ++ "---" ++ Text.LF
     ++ "entry about api endpoints" ++ Text.LF).

End Spec.

(* ================================================================== *)
(** * Facts about the text operations                                   *)
(* ================================================================== *)

Section TextFacts.

Import Spec.

Lemma prefix_append (s t : string) : String.prefix s (s ++ t) = true.
Proof.
  induction s as [| c s IH]; simpl.
  - now destruct t.
  - destruct (ascii_dec c c) as [_ | ne]; [exact IH | now elim ne].
Qed.

Lemma prefix_split (s t : string) :
  String.prefix s t = true -> exists rest, t = s ++ rest.
Proof.
  revert t; induction s as [| c s IH]; intros t H.
  - now exists t.
  - destruct t as [| d t]; simpl in H; [discriminate |].
    destruct (ascii_dec c d) as [-> | _]; [| discriminate].
    destruct (IH t H) as [rest ->]. now exists rest.
Qed.

(** [contains] is substring containment: the needle sits between some
    beginning and some end of the text. *)
Lemma contains_spec (needle hay : string) :
  Text.contains needle hay = true
  <-> exists before after, hay = before ++ needle ++ after.
Proof.
  split.
  - induction hay as [| c hay IH]; cbn [Text.contains]; intros H.
    + rewrite orb_false_r in H. apply prefix_split in H.
      destruct H as [rest H]. now exists EmptyString, rest.
    + apply orb_true_iff in H. destruct H as [H | H].
      * apply prefix_split in H. destruct H as [rest H].
        now exists EmptyString, rest.
      * destruct (IH H) as (before & after & ->).
        now exists (String c before), after.
  - intros (before & after & ->).
    induction before as [| c before IH].
    + change (EmptyString ++ needle ++ after) with (needle ++ after).
      destruct (needle ++ after) eqn:E; cbn [Text.contains];
        rewrite <- E, prefix_append; reflexivity.
    + change (String c before ++ needle ++ after)
        with (String c (before ++ needle ++ after)).
      cbn [Text.contains]. rewrite IH. apply orb_true_r.
Qed.

Lemma mem_In (s : string) (xs : list string) :
  Text.mem s xs = true <-> In s xs.
Proof.
  unfold Text.mem. rewrite existsb_exists. split.
  - intros (x & Hin & Heq). apply String.eqb_eq in Heq. now subst.
  - intros Hin. exists s. split; [exact Hin | apply String.eqb_refl].
Qed.

Lemma any_in_spec (needles : list string) (hay : string) :
  Text.any_in needles hay = true
  <-> exists kw, In kw needles /\ Text.contains kw hay = true.
Proof. unfold Text.any_in. apply existsb_exists. Qed.

Lemma nonempty_iff (s : string) : Text.nonempty s = true <-> s <> EmptyString.
Proof. destruct s; simpl; split; congruence. Qed.

Lemma lstrip_empty (s : string) :
  Text.lstrip s = EmptyString <-> whitespace_only s = true.
Proof.
  induction s as [| c s IH]; simpl; [tauto |].
  destruct (Text.is_space c); simpl; [exact IH | split; discriminate].
Qed.

Lemma rstrip_empty (s : string) :
  Text.rstrip s = EmptyString <-> whitespace_only s = true.
Proof.
  induction s as [| c s IH]; simpl; [tauto |].
  destruct (Text.rstrip s) eqn:E.
  - destruct (Text.is_space c); simpl; [| split; discriminate].
    split; intros _; [now apply IH | reflexivity].
  - split; [discriminate |].
    intros H. apply andb_true_iff in H. destruct H as [_ H].
    apply IH in H. discriminate.
Qed.

Lemma whitespace_only_lstrip (s : string) :
  whitespace_only (Text.lstrip s) = whitespace_only s.
Proof.
  induction s as [| c s IH]; simpl; [reflexivity |].
  destruct (Text.is_space c) eqn:E; simpl; [exact IH | now rewrite E].
Qed.

(** [strip] leaves nothing exactly of the whitespace-only texts. *)
Lemma strip_empty (s : string) :
  Text.strip s = EmptyString <-> whitespace_only s = true.
Proof.
  unfold Text.strip. rewrite rstrip_empty. now rewrite whitespace_only_lstrip.
Qed.

End TextFacts.

(* ================================================================== *)
(** * Mode detection                                                    *)
(* ================================================================== *)

Section ModeDetection.

Import ModeTransitions Spec.

Lemma any_in_mentions (phrases : list string) (text : string) :
  Text.any_in phrases (Text.lower text) = true <-> mentions phrases text.
Proof. apply any_in_spec. Qed.

Lemma any_in_not_mentions (phrases : list string) (text : string) :
  ~ mentions phrases text -> Text.any_in phrases (Text.lower text) = false.
Proof.
  intros H. destruct (Text.any_in phrases (Text.lower text)) eqn:E; [| reflexivity].
  elim H. now apply any_in_mentions.
Qed.

(** The checks of the deployment script on [detect_mode_switch]. *)
Example transition_cases :
  detect_mode_switch "Ariadne, companion mode" OPERATIONAL = COMPANION
  /\ detect_mode_switch "switch to companion" OPERATIONAL = COMPANION
  /\ detect_mode_switch "can you debug this function?" COMPANION = OPERATIONAL
  /\ detect_mode_switch "please analyze the data" COMPANION = OPERATIONAL
  /\ detect_mode_switch "hello there" OPERATIONAL = OPERATIONAL
  /\ detect_mode_switch "how are you doing?" COMPANION = COMPANION
  /\ detect_mode_switch "ariadne, companion mode — then code something"
       OPERATIONAL = COMPANION
  /\ detect_mode_switch "enter administrative mode" OPERATIONAL = ADMINISTRATIVE
  /\ detect_mode_switch "ariadne, admin mode" COMPANION = ADMINISTRATIVE
  /\ detect_mode_switch "enter administrative mode and debug the logs"
       OPERATIONAL = ADMINISTRATIVE
  /\ detect_mode_switch "show system status" ADMINISTRATIVE = ADMINISTRATIVE.
Proof. repeat split; vm_compute; reflexivity. Qed.

(** C5. Mode detection applies its rules in a fixed order.  A text whose
    lower-cased form contains an administrative phrase gives
    Administrative, whatever companion phrases or task keywords it also
    contains; without one, a companion phrase gives Companion; without
    either, a task keyword gives Operational; and a text matching
    nothing gives back the current mode. *)
Theorem detect_mode_switch_precedence (text current : string) :
  (mentions ADMINISTRATIVE_PHRASES text ->
     detect_mode_switch text current = ADMINISTRATIVE)
  /\ (~ mentions ADMINISTRATIVE_PHRASES text ->
      mentions COMPANION_PHRASES text ->
      detect_mode_switch text current = COMPANION)
  /\ (~ mentions ADMINISTRATIVE_PHRASES text ->
      ~ mentions COMPANION_PHRASES text ->
      mentions TASK_INDICATORS text ->
      detect_mode_switch text current = OPERATIONAL)
  /\ (~ mentions ADMINISTRATIVE_PHRASES text ->
      ~ mentions COMPANION_PHRASES text ->
      ~ mentions TASK_INDICATORS text ->
      detect_mode_switch text current = current).
Proof.
  unfold detect_mode_switch. repeat split.
  - intros Ha. apply any_in_mentions in Ha. now rewrite Ha.
  - intros Ha Hc. apply any_in_not_mentions in Ha. apply any_in_mentions in Hc.
    now rewrite Ha, Hc.
  - intros Ha Hc Ht. apply any_in_not_mentions in Ha, Hc.
    apply any_in_mentions in Ht. now rewrite Ha, Hc, Ht.
  - intros Ha Hc Ht. apply any_in_not_mentions in Ha, Hc, Ht.
    now rewrite Ha, Hc, Ht.
Qed.

(** An administrative phrase next to a task keyword: step 1 wins. *)
Lemma detect_mode_switch_precedence_witness :
  mentions ADMINISTRATIVE_PHRASES "Enter Administrative Mode and debug the logs"
  /\ mentions TASK_INDICATORS "Enter Administrative Mode and debug the logs"
  /\ detect_mode_switch "Enter Administrative Mode and debug the logs" COMPANION
     = ADMINISTRATIVE.
Proof.
  assert (Ha : mentions ADMINISTRATIVE_PHRASES
                 "Enter Administrative Mode and debug the logs").
  { exists "enter administrative mode". split; [simpl; tauto | reflexivity]. }
  split; [exact Ha | split].
  - exists "debug". split; [simpl; tauto | reflexivity].
  - exact (proj1 (detect_mode_switch_precedence
                    "Enter Administrative Mode and debug the logs" COMPANION) Ha).
Defined.

(** Detection is total on modes: from a mode it answers a mode. *)
Lemma detect_mode_switch_mode (text current : string) :
  In current [OPERATIONAL; COMPANION; ADMINISTRATIVE] ->
  In (detect_mode_switch text current) [OPERATIONAL; COMPANION; ADMINISTRATIVE].
Proof.
  intros H. unfold detect_mode_switch.
  repeat match goal with |- context [if ?b then _ else _] => destruct b end;
    simpl; tauto.
Qed.

End ModeDetection.

(* ================================================================== *)
(** * The override gateway and its audit log                            *)
(* ================================================================== *)

Section OverrideGateway.

Import Workspace StateOverrideTool Spec.

Lemma environ_get_unset (env : environ) (name default : string) :
  (forall v, ~ In (name, v) env) -> environ_get env name default = default.
Proof.
  induction env as [| [k v] env IH]; simpl; intros H; [reflexivity |].
  destruct (String.eqb k name) eqn:E.
  - apply String.eqb_eq in E. subst k. elim (H v). now left.
  - apply IH. intros w Hw. apply (H w). now right.
Qed.

(** No reference digest: the variable is not set, or it is set to the
    empty text. *)
Lemma reference_digest_unset (env : environ) :
  (forall v, ~ In (_TOKEN_HASH_ENV_VAR, v) env) ->
  reference_digest env = EmptyString.
Proof. apply environ_get_unset. Qed.

Lemma reference_digest_set (env : environ) (v : string) :
  reference_digest ((_TOKEN_HASH_ENV_VAR, v) :: env) = v.
Proof. reflexivity. Qed.

Lemma validate_token_iff (env : environ) (credential : string) :
  _validate_token env credential = true <-> digest_matches env credential.
Proof.
  unfold _validate_token, digest_matches, reference_digest.
  destruct (environ_get env _TOKEN_HASH_ENV_VAR "") as [| c h] eqn:E; simpl.
  - split; [discriminate | intros [H _]; now elim H].
  - rewrite String.eqb_eq. split; [intros H; split; [discriminate | exact H] | tauto].
Qed.


Lemma content_of_append_text (f : file) (text : string) :
  content_of (append_text f text) = content_of f ++ text.
Proof. destruct f; reflexivity. Qed.

Lemma log_audit (ts : string) (ws : workspace)
    (event target_state outcome : string) :
  log (_audit ts ws event target_state outcome)
  = log ws ++ audit_entry ts event target_state outcome.
Proof. unfold log, _audit; simpl. apply content_of_append_text. Qed.

(** The three ways out of [run]. *)
Lemma run_unknown_state env ts ws target_state auth_token :
  ~ In target_state _VALID_STATES ->
  run env ts ws target_state auth_token
  = (Build_response "error"
       ("Unknown state '" ++ target_state
        ++ "'. Valid states: ['administrative', 'companion', 'operational']"),
     ws).
Proof.
  intros H. unfold run.
  destruct (Text.mem target_state _VALID_STATES) eqn:E; [| reflexivity].
  elim H. now apply mem_In.
Qed.

Lemma run_rejected env ts ws target_state auth_token :
  In target_state _VALID_STATES ->
  _validate_token env auth_token = false ->
  run env ts ws target_state auth_token
  = (Build_response "error" "Authentication failed. Override rejected.",
     _audit ts ws "OVERRIDE_REJECTED" target_state "invalid token").
Proof.
  intros Hin Hv. unfold run.
  apply mem_In in Hin. now rewrite Hin, Hv.
Qed.

Lemma run_applied env ts ws target_state auth_token :
  In target_state _VALID_STATES ->
  _validate_token env auth_token = true ->
  run env ts ws target_state auth_token
  = (Build_response "ok"
       ("State override to '" ++ target_state ++ "' authorized and logged."),
     _audit ts ws "OVERRIDE_APPLIED" target_state "authorized").
Proof.
  intros Hin Hv. unfold run.
  apply mem_In in Hin. now rewrite Hin, Hv.
Qed.

(** The unit tests of the gateway: the digest of the test token is the
    one [hashlib] gives, and the four calls answer as the tests expect. *)
Example sha256_constants :
  firstn 2 SHA256.round_constants = [ 0x428a2f98; 0x71374491 ]%Z
  /\ nth 63 SHA256.round_constants 0%Z = 0xc67178f2%Z
  /\ firstn 2 SHA256.initial_hash = [ 0x6a09e667; 0xbb67ae85 ]%Z
  /\ nth 7 SHA256.initial_hash 0%Z = 0x5be0cd19%Z.
Proof. vm_compute. repeat split. Qed.

(** The test vectors of the standard for the empty text, for one block
    and for two blocks. *)
Example sha256_vectors :
  SHA256.hexdigest ""
  = "e3b0c44298fc1c149afbf4c8996fb92427ae41e4649b934ca495991b7852b855"
  /\ SHA256.hexdigest "abc"
     = "ba7816bf8f01cfea414140de5dae2223b00361a396177a9cb410ff61f20015ad"
  /\ SHA256.hexdigest
       "abcdbcdecdefdefgefghfghighijhijkijkljklmklmnlmnomnopnopq"
     = "248d6a61d20638b8e5c026930c3e6039a33ce45964ff2167f6ecedd419db06c1".
Proof. vm_compute. repeat split. Qed.

Example test_token_digest :
  SHA256.hexdigest "zeroclaw_test_token"
  = "988249fa2070a4947984c1673dced34ef027201d40b6b0cbabea0b4b0ae474e5".
Proof. vm_compute. reflexivity. Qed.

Example test_state_override_tool :
  status (fst (run [] "t" empty_workspace "unknown_state" "any-token")) = "error"
  /\ status (fst (run [] "t" empty_workspace "operational" "some-token")) = "error"
  /\ status (fst (run test_environ "t" empty_workspace
                    "operational" "zeroclaw_test_token")) = "ok"
  /\ status (fst (run test_environ "t" empty_workspace
                    "operational" "wrong-token")) = "error".
Proof. repeat split; vm_compute; reflexivity. Qed.





Lemma audit_log_prefix_refl (s : string) : String.prefix s s = true.
Proof.
  induction s as [| c s IH]; simpl; [reflexivity |].
  destruct (ascii_dec c c) as [_ | ne]; [exact IH | now elim ne].
Qed.

Lemma prefix_transitive (s t u : string) :
  String.prefix s t = true -> String.prefix t u = true ->
  String.prefix s u = true.
Proof.
  intros Hst Htu.
  apply prefix_split in Hst. destruct Hst as [r1 ->].
  apply prefix_split in Htu. destruct Htu as [r2 ->].
  assert (Hassoc : (s ++ r1) ++ r2 = s ++ (r1 ++ r2)).
  { clear. induction s as [| c s IH]; simpl; [reflexivity | now rewrite IH]. }
  rewrite Hassoc. apply prefix_append.
Qed.

(** What a call does to the log: nothing, or one entry at its end. *)
Lemma run_log_cases
    (env : environ) (ts : string) (ws : workspace)
    (target_state credential : string) :
  log (snd (run env ts ws target_state credential)) = log ws
  \/ exists event outcome,
       log (snd (run env ts ws target_state credential))
       = log ws ++ audit_entry ts event target_state outcome.
Proof.
  destruct (in_dec string_dec target_state _VALID_STATES) as [Hin | Hout].
  - right. destruct (_validate_token env credential) eqn:E.
    + rewrite (run_applied env ts ws target_state credential Hin E).
      exists "OVERRIDE_APPLIED", "authorized". apply log_audit.
    + rewrite (run_rejected env ts ws target_state credential Hin E).
      exists "OVERRIDE_REJECTED", "invalid token". apply log_audit.
  - left. now rewrite (run_unknown_state env ts ws target_state credential Hout).
Qed.

Lemma run_log_prefix
    (env : environ) (ts : string) (ws : workspace)
    (target_state credential : string) :
  String.prefix (log ws) (log (snd (run env ts ws target_state credential)))
  = true.
Proof.
  destruct (run_log_cases env ts ws target_state credential)
    as [-> | (event & outcome & ->)].
  - apply audit_log_prefix_refl.
  - apply prefix_append.
Qed.

(** C9. The audit log is append-only.  After any call the log starts
    with the log of before: nothing written earlier is changed or
    removed, and what the call adds at the end is nothing or one
    entry. *)
Theorem audit_log_append_only
    (env : environ) (ts : string) (ws : workspace)
    (target_state credential : string) :
  String.prefix (log ws) (log (snd (run env ts ws target_state credential)))
  = true
  /\ (log (snd (run env ts ws target_state credential)) = log ws
      \/ exists event outcome,
           log (snd (run env ts ws target_state credential))
           = log ws ++ audit_entry ts event target_state outcome).
Proof.
  split; [apply run_log_prefix | apply run_log_cases].
Qed.

(** The same over any sequence of calls: the log only grows. *)
Lemma audit_log_grows (calls : list call) (ws : workspace) :
  String.prefix (log ws) (log (after_calls calls ws)) = true.
Proof.
  revert ws. induction calls as [| c calls IH]; intros ws; simpl.
  - apply audit_log_prefix_refl.
  - apply prefix_transitive with (t := log (after_call ws c)); [| apply IH].
    apply run_log_prefix.
Qed.

(** The gateway writes to the log only: the configuration files and the
    directories are as before. *)
Lemma override_touches_log_only
    (env : environ) (ts : string) (ws : workspace)
    (target_state credential : string) :
  let ws' := snd (run env ts ws target_state credential) in
  agents_ariadne_yaml ws' = agents_ariadne_yaml ws
  /\ ai_ariadne_guardrails_ts ws' = ai_ariadne_guardrails_ts ws
  /\ ariadne_proposals ws' = ariadne_proposals ws
  /\ tools_dir ws' = tools_dir ws.
Proof.
  unfold run.
  destruct (Text.mem target_state _VALID_STATES); simpl;
    [destruct (_validate_token env credential) |]; simpl; tauto.
Qed.

End OverrideGateway.

(* ================================================================== *)
(** * The constraint audit and the diagnostics snapshot                 *)
(* ================================================================== *)

Section ConstraintCompliance.

Import Workspace Spec.

(** The loop of [run] over any list of constraints: it adds one record
    per constraint, in order, and raises the flag at the first status
    that is not ["active"]. *)
Lemma audit_loop (ws : workspace) (yaml_exists guard_exists : bool)
    (names : list string) (acc : list ConstraintAuditTool.entry * bool) :
  fold_left (ConstraintAuditTool.audit_step ws yaml_exists guard_exists) names acc
  = ((fst acc
      ++ map (fun name =>
                ConstraintAuditTool.Build_entry name
                  (ConstraintAuditTool._check_constraint ws name yaml_exists guard_exists))
             names)%list,
     snd acc || existsb (needs_attention ws yaml_exists guard_exists) names).
Proof.
  revert acc. induction names as [| name names IH]; intros [results drift].
  - simpl. now rewrite app_nil_r, orb_false_r.
  - cbn [fold_left]. rewrite IH. unfold ConstraintAuditTool.audit_step, needs_attention.
    cbn [fst snd map existsb]. rewrite <- app_assoc. cbn [app]. f_equal.
    destruct (negb _); [now rewrite orb_true_r | reflexivity].
Qed.

Lemma run_constraints (now : string) (ws : workspace) :
  ConstraintAuditTool.constraints (ConstraintAuditTool.run now ws)
  = map (fun name =>
           ConstraintAuditTool.Build_entry name
             (ConstraintAuditTool._check_constraint ws name
                (exists_ (agents_ariadne_yaml ws))
                (exists_ (ai_ariadne_guardrails_ts ws))))
        ConstraintAuditTool._DECLARED_CONSTRAINTS.
Proof. unfold ConstraintAuditTool.run. rewrite audit_loop. reflexivity. Qed.

Lemma run_drift_detected (now : string) (ws : workspace) :
  ConstraintAuditTool.drift_detected (ConstraintAuditTool.run now ws)
  = existsb (needs_attention ws (exists_ (agents_ariadne_yaml ws))
                             (exists_ (ai_ariadne_guardrails_ts ws)))
            ConstraintAuditTool._DECLARED_CONSTRAINTS.
Proof. unfold ConstraintAuditTool.run. rewrite audit_loop. reflexivity. Qed.

(** The flag of a report says that one of its records is not active. *)
Lemma drift_detected_spec (now : string) (ws : workspace) :
  ConstraintAuditTool.drift_detected (ConstraintAuditTool.run now ws) = true
  <-> exists e, In e (ConstraintAuditTool.constraints (ConstraintAuditTool.run now ws))
                /\ ConstraintAuditTool.status e <> "active".
Proof.
  rewrite run_drift_detected, run_constraints, existsb_exists. split.
  - intros (name & Hin & Hne). eexists. split.
    + apply in_map_iff. exists name. split; [reflexivity | exact Hin].
    + unfold needs_attention in Hne. cbn [ConstraintAuditTool.status].
      apply negb_true_iff in Hne. now apply String.eqb_neq.
  - intros (e & Hin & Hne). apply in_map_iff in Hin.
    destruct Hin as (name & <- & Hin). exists name. split; [exact Hin |].
    unfold needs_attention. apply negb_true_iff. now apply String.eqb_neq.
Qed.

Lemma existsb_false_iff {A : Type} (f : A -> bool) (xs : list A) :
  existsb f xs = false <-> forall x, In x xs -> f x = false.
Proof.
  induction xs as [| y xs IH]; simpl.
  - split; [intros _ x [] | reflexivity].
  - rewrite orb_false_iff, IH. split.
    + intros [Hy Hxs] x [<- | Hin]; [exact Hy | now apply Hxs].
    + intros H. split; [apply H; now left | intros x Hin; apply H; now right].
Qed.

(** The unit tests of the audit on a workspace without configuration,
    and the report on a compliant one. *)
Example test_constraint_audit_tool :
  ConstraintAuditTool.drift_detected
    (ConstraintAuditTool.run "t" empty_workspace) = true
  /\ ConstraintAuditTool.summary (ConstraintAuditTool.run "t" empty_workspace)
     = "4 constraint(s) require attention."
  /\ ConstraintAuditTool.drift_detected
       (ConstraintAuditTool.run "t" compliant_workspace) = false
  /\ ConstraintAuditTool.summary (ConstraintAuditTool.run "t" compliant_workspace)
     = "All constraints active.".
Proof. vm_compute. repeat split. Qed.

Lemma full_yaml_names (name : string) :
  In name ConstraintAuditTool._DECLARED_CONSTRAINTS ->
  Text.contains name full_yaml = true.
Proof.
  apply (proj1 (forallb_forall (fun name => Text.contains name full_yaml)
                               ConstraintAuditTool._DECLARED_CONSTRAINTS)).
  vm_compute. reflexivity.
Qed.

(** The configuration names every declared constraint, there is no
    [guardrails.ts], and the audit reports drift: the delegated
    constraint is unverifiable. *)
Lemma audit_full_yaml_without_guardrails :
  agents_ariadne_yaml yaml_only_workspace = Present true full_yaml
  /\ (forall name, In name ConstraintAuditTool._DECLARED_CONSTRAINTS ->
                   Text.contains name full_yaml = true)
  /\ ConstraintAuditTool.drift_detected
       (ConstraintAuditTool.run "t" yaml_only_workspace) = true
  /\ In (ConstraintAuditTool.Build_entry "no_explicit_content"
           "unverifiable — guardrails.ts missing")
        (ConstraintAuditTool.constraints
           (ConstraintAuditTool.run "t" yaml_only_workspace)).
Proof.
  split; [reflexivity | split; [| split]].
  - apply full_yaml_names.
  - vm_compute. reflexivity.
  - vm_compute. tauto.
Qed.

(** C6, amended. The flag [drift_detected] is true exactly when some
    record of the report has a status other than ["active"].  In
    particular a readable configuration that names every declared
    constraint, together with a readable [guardrails.ts] that contains
    [BANNED_PATTERNS], gives [drift_detected = false]. *)
Theorem drift_detected_iff (now : string) (ws : workspace) :
  (ConstraintAuditTool.drift_detected (ConstraintAuditTool.run now ws) = true
   <-> exists e,
         In e (ConstraintAuditTool.constraints (ConstraintAuditTool.run now ws))
         /\ ConstraintAuditTool.status e <> "active")
  /\ (forall yaml guardrails,
        agents_ariadne_yaml ws = Present true yaml ->
        ai_ariadne_guardrails_ts ws = Present true guardrails ->
        (forall name, In name ConstraintAuditTool._DECLARED_CONSTRAINTS ->
                      Text.contains name yaml = true) ->
        Text.contains "BANNED_PATTERNS" guardrails = true ->
        ConstraintAuditTool.drift_detected (ConstraintAuditTool.run now ws)
        = false).
Proof.
  split; [apply drift_detected_spec |].
  intros yaml guardrails Hyaml Hguard Hnames Hmarker.
  rewrite run_drift_detected. apply existsb_false_iff. intros name Hin.
  unfold needs_attention, ConstraintAuditTool._check_constraint.
  rewrite Hyaml, Hguard. cbn [exists_ negb read_text].
  rewrite Hmarker, (Hnames name Hin).
  now destruct (Text.mem name ConstraintAuditTool._VERIFIABLE_VIA_GUARDRAILS).
Qed.

Lemma drift_detected_iff_witness :
  ConstraintAuditTool.drift_detected
    (ConstraintAuditTool.run "t" compliant_workspace) = false.
Proof.
  apply (proj2 (drift_detected_iff "t" compliant_workspace)
           full_yaml "export const BANNED_PATTERNS = [];").
  - reflexivity.
  - reflexivity.
  - apply full_yaml_names.
  - vm_compute. reflexivity.
Defined.

(** C7. Without [agents/ariadne.yaml] every declared constraint, the
    delegated one included, gets the status
    ["unverifiable — agents/ariadne.yaml missing"], whatever
    [guardrails.ts] is, and the report says [drift_detected = true]. *)
Theorem audit_without_configuration (now : string) (ws : workspace) :
  exists_ (agents_ariadne_yaml ws) = false ->
  ConstraintAuditTool.constraints (ConstraintAuditTool.run now ws)
  = map (fun name =>
           ConstraintAuditTool.Build_entry name
             "unverifiable — agents/ariadne.yaml missing")
        ConstraintAuditTool._DECLARED_CONSTRAINTS
  /\ Forall (fun e =>
               String.prefix "unverifiable" (ConstraintAuditTool.status e) = true)
            (ConstraintAuditTool.constraints (ConstraintAuditTool.run now ws))
  /\ ConstraintAuditTool.drift_detected (ConstraintAuditTool.run now ws) = true.
Proof.
  intros Hmissing.
  assert (Hc : ConstraintAuditTool.constraints (ConstraintAuditTool.run now ws)
               = map (fun name =>
                        ConstraintAuditTool.Build_entry name
                          "unverifiable — agents/ariadne.yaml missing")
                     ConstraintAuditTool._DECLARED_CONSTRAINTS).
  { rewrite run_constraints, Hmissing. reflexivity. }
  split; [exact Hc | split].
  - rewrite Hc. repeat constructor.
  - rewrite run_drift_detected, Hmissing. reflexivity.
Qed.

Lemma audit_without_configuration_witness :
  ConstraintAuditTool.constraints
    (ConstraintAuditTool.run "t"
       (Build_workspace Missing (Present true "BANNED_PATTERNS") Missing None []))
  = map (fun name =>
           ConstraintAuditTool.Build_entry name
             "unverifiable — agents/ariadne.yaml missing")
        ConstraintAuditTool._DECLARED_CONSTRAINTS
  /\ ConstraintAuditTool.drift_detected
       (ConstraintAuditTool.run "t"
          (Build_workspace Missing (Present true "BANNED_PATTERNS") Missing None []))
     = true.
Proof.
  destruct (audit_without_configuration "t"
              (Build_workspace Missing (Present true "BANNED_PATTERNS")
                               Missing None []) eq_refl)
    as (Hc & _ & Hd).
  exact (conj Hc Hd).
Defined.

(** Without the configuration the whole report, its clock reading
    apart, is the same in every workspace: the collaborator artifact is
    not consulted. *)
Lemma audit_without_configuration_report (now : string) (ws : workspace) :
  exists_ (agents_ariadne_yaml ws) = false ->
  ConstraintAuditTool.run now ws = ConstraintAuditTool.run now empty_workspace.
Proof.
  intros Hmissing. unfold ConstraintAuditTool.run.
  rewrite !audit_loop, Hmissing. reflexivity.
Qed.

(** In an empty workspace the audit finds every constraint unverifiable
    and reports drift, while the snapshot lists them all as active. *)
Lemma diagnostics_hide_drift :
  ConstraintAuditTool.drift_detected
    (ConstraintAuditTool.run "t" empty_workspace) = true
  /\ SystemDiagnosticsTool.constraints
       (SystemDiagnosticsTool.run "t" "./" None empty_workspace)
     <> audit_statuses (ConstraintAuditTool.run "t" empty_workspace).
Proof.
  split; [vm_compute; reflexivity |].
  vm_compute. intros H. discriminate H.
Qed.

(** C8, amended. The constraints section of the snapshot names the
    constraints the audit names, in the same order, each with the
    status ["active"]; it is equal to the per-constraint result of the
    audit of the same workspace exactly when that audit detects no
    drift. *)
Theorem diagnostics_constraints_vs_audit
    (now now' root : string) (proc_uptime : option Q) (ws : workspace) :
  map fst (SystemDiagnosticsTool.constraints
             (SystemDiagnosticsTool.run now root proc_uptime ws))
  = map fst (audit_statuses (ConstraintAuditTool.run now' ws))
  /\ Forall (fun item => snd item = "active")
            (SystemDiagnosticsTool.constraints
               (SystemDiagnosticsTool.run now root proc_uptime ws))
  /\ (SystemDiagnosticsTool.constraints
        (SystemDiagnosticsTool.run now root proc_uptime ws)
      = audit_statuses (ConstraintAuditTool.run now' ws)
      <-> ConstraintAuditTool.drift_detected (ConstraintAuditTool.run now' ws)
          = false).
Proof.
  unfold audit_statuses. rewrite run_constraints, run_drift_detected, !map_map.
  cbn [SystemDiagnosticsTool.run SystemDiagnosticsTool.constraints
       ConstraintAuditTool.constraint ConstraintAuditTool.status fst].
  unfold SystemDiagnosticsTool._constraint_status.
  change SystemDiagnosticsTool._DECLARED_CONSTRAINTS
    with ConstraintAuditTool._DECLARED_CONSTRAINTS.
  split; [| split].
  - now rewrite map_map.
  - apply Forall_forall. intros item Hin. apply in_map_iff in Hin.
    now destruct Hin as (name & <- & _).
  - rewrite existsb_false_iff, map_ext_in_iff. split.
    + intros Heq name Hin. specialize (Heq name Hin).
      injection Heq as Hstatus. unfold needs_attention.
      rewrite <- Hstatus. reflexivity.
    + intros Hall name Hin. f_equal.
      specialize (Hall name Hin). unfold needs_attention in Hall.
      apply negb_false_iff, String.eqb_eq in Hall. now symmetry.
Qed.

(** The unit test of the snapshot. *)
Example test_state_stability_is_stable :
  SystemDiagnosticsTool.state_stability
    (SystemDiagnosticsTool.run "t" "./" None empty_workspace) = "stable".
Proof. reflexivity. Qed.

(** C10. Whatever the workspace holds, the snapshot says
    [state_stability = "stable"] and gives each of the four declared
    constraints the status ["active"]: both fields are constants. *)
Theorem diagnostics_constants
    (now root : string) (proc_uptime : option Q) (ws : workspace) :
  SystemDiagnosticsTool.state_stability
    (SystemDiagnosticsTool.run now root proc_uptime ws) = "stable"
  /\ SystemDiagnosticsTool.constraints
       (SystemDiagnosticsTool.run now root proc_uptime ws)
     = [ ("no_cross_state_context_leakage", "active");
         ("no_emotional_output_in_operational_state", "active");
         ("no_system_commands_outside_administrative_state", "active");
         ("no_explicit_content", "active") ].
Proof. split; reflexivity. Qed.

End ConstraintCompliance.

(* ================================================================== *)
(** * The proposal pipeline                                             *)
(* ================================================================== *)

Section ProposalPipeline.

Import Workspace Py Spec.

(** The unit tests of the validator. *)
Example test_validation_workflow_tool :
  ValidationWorkflowTool.valid (ValidationWorkflowTool.run "t" valid_proposal)
  = true
  /\ ValidationWorkflowTool.errors (ValidationWorkflowTool.run "t" valid_proposal)
     = []
  /\ ValidationWorkflowTool.valid
       (ValidationWorkflowTool.run "t" [ ("title", VStr "Missing phases") ])
     = false.
Proof. vm_compute. repeat split. Qed.

(** Validity is read off the error list alone. *)
Lemma valid_iff_no_errors (now : string) (proposal : dict) :
  ValidationWorkflowTool.valid (ValidationWorkflowTool.run now proposal) = true
  <-> ValidationWorkflowTool.errors (ValidationWorkflowTool.run now proposal) = [].
Proof.
  unfold ValidationWorkflowTool.run.
  destruct (ValidationWorkflowTool._check_phases _ _ _) as [errors warnings].
  cbn [ValidationWorkflowTool.valid ValidationWorkflowTool.errors].
  destruct errors; simpl; split; congruence.
Qed.

Lemma missing_keys_well_formed (fields : dict) :
  Forall (fun key => has_key fields key = true)
         ValidationWorkflowTool._PHASE_REQUIRED_KEYS ->
  ValidationWorkflowTool.missing_keys fields = [].
Proof.
  unfold ValidationWorkflowTool.missing_keys.
  induction 1 as [| key keys Hkey _ IH]; simpl; [reflexivity |].
  now rewrite Hkey.
Qed.

(** Well-formed phases add no error; what they add are warnings about
    phases. *)
Lemma check_phases_well_formed (phases : list value) :
  Forall well_formed_phase phases ->
  forall (i : nat) (errors warnings : list string),
  exists added,
    ValidationWorkflowTool.check_phases_from i phases (errors, warnings)
    = (errors, (warnings ++ added)%list)
    /\ Forall (fun msg => String.prefix "Phase[" msg = true) added.
Proof.
  induction 1 as [| phase phases (fields & -> & Hkeys) _ IH];
    intros i errors warnings.
  - exists []. now rewrite app_nil_r.
  - cbn [ValidationWorkflowTool.check_phases_from
         ValidationWorkflowTool.check_phase].
    rewrite (missing_keys_well_formed fields Hkeys).
    destruct (negb (truthy (get fields "steps" VNone))).
    + destruct (IH (S i) errors
                  (append warnings
                     ("Phase[" ++ Text.decimal i ++ "] ('"
                      ++ str (get fields "name" (VStr "?"))
                      ++ "') has no steps")))
        as (added & -> & Hadded).
      eexists. unfold append. rewrite <- app_assoc. split; [reflexivity |].
      constructor; [apply (prefix_append "Phase[") | exact Hadded].
    + destruct (IH (S i) errors warnings) as (added & -> & Hadded).
      now exists added.
Qed.

(** The report on a proposal whose four fields have the expected
    classes and whose phases are well formed: an error per empty list
    field, and the warnings of the phases followed by a warning per
    empty list field. *)
Lemma run_well_formed (now : string) (proposal : dict) (title : string)
    (phases resources gates : list value) :
  lookup proposal "title" = Some (VStr title) ->
  lookup proposal "phases" = Some (VList phases) ->
  phases <> [] ->
  Forall well_formed_phase phases ->
  lookup proposal "resources" = Some (VList resources) ->
  lookup proposal "validation_gates" = Some (VList gates) ->
  exists phase_warnings,
    Forall (fun msg => String.prefix "Phase[" msg = true) phase_warnings
    /\ ValidationWorkflowTool.errors (ValidationWorkflowTool.run now proposal)
       = (empty_field_error "resources" resources
          ++ empty_field_error "validation_gates" gates)%list
    /\ ValidationWorkflowTool.warnings (ValidationWorkflowTool.run now proposal)
       = (phase_warnings
          ++ empty_list_warning no_resources_warning resources
          ++ empty_list_warning no_gates_warning gates)%list.
Proof.
  intros Htitle Hphases Hsome Hwf Hres Hgates.
  unfold ValidationWorkflowTool.run, ValidationWorkflowTool._check_required_fields,
    ValidationWorkflowTool._REQUIRED_FIELDS, get.
  cbn [fold_left]. unfold ValidationWorkflowTool.check_field.
  rewrite Htitle, Hphases, Hres, Hgates.
  cbn [isinstance negb andb truthy].
  unfold ValidationWorkflowTool._check_phases.
  assert (Hp : match phases with [] => false | _ :: _ => true end = true)
    by (destruct phases; [now elim Hsome | reflexivity]).
  rewrite Hp. cbn [negb].
  match goal with
  | |- context [ValidationWorkflowTool.check_phases_from 0 phases (?e, [])] =>
      destruct (check_phases_well_formed phases Hwf 0 e [])
        as (phase_warnings & -> & Hprefix)
  end.
  exists phase_warnings. split; [exact Hprefix |].
  cbn [ValidationWorkflowTool.errors ValidationWorkflowTool.warnings app].
  destruct resources, gates; cbn; rewrite ?app_nil_r; split; try reflexivity.
  unfold append. now rewrite <- app_assoc.
Qed.

(** The proposal of the tests with an empty resources list: the title
    is a non-empty string and the phases are well formed, yet the
    report carries an error and is not valid. *)
Lemma empty_resources_invalid :
  lookup proposal_without_resources "title" = Some (VStr "Test proposal")
  /\ (exists phases,
        lookup proposal_without_resources "phases" = Some (VList phases)
        /\ phases <> [] /\ Forall well_formed_phase phases)
  /\ lookup proposal_without_resources "resources" = Some (VList [])
  /\ ValidationWorkflowTool.errors
       (ValidationWorkflowTool.run "t" proposal_without_resources)
     = [ "Field 'resources' must not be empty" ]
  /\ ValidationWorkflowTool.valid
       (ValidationWorkflowTool.run "t" proposal_without_resources) = false.
Proof.
  split; [reflexivity | split; [| repeat split]].
  eexists. split; [reflexivity | split; [discriminate |]].
  constructor; [| constructor].
  eexists. split; [reflexivity |]. repeat constructor.
Qed.

Lemma in_app3 (x : string) (xs ys zs : list string) :
  In x (xs ++ ys ++ zs)%list <-> In x xs \/ In x ys \/ In x zs.
Proof. rewrite !in_app_iff. tauto. Qed.

(** C3, amended. For a proposal whose title is a string, whose phases
    list is non-empty and well formed, and whose resources and
    validation gates are lists: an empty resources list produces the
    warning about resources and also the error that the field must not
    be empty, and likewise for an empty list of validation gates; there
    is no other error, so the report is valid exactly when both lists
    are non-empty.  Warnings do not count: validity is the absence of
    errors. *)
Theorem empty_lists_are_errors (now : string) (proposal : dict)
    (title : string) (phases resources gates : list value) :
  lookup proposal "title" = Some (VStr title) ->
  lookup proposal "phases" = Some (VList phases) ->
  phases <> [] ->
  Forall well_formed_phase phases ->
  lookup proposal "resources" = Some (VList resources) ->
  lookup proposal "validation_gates" = Some (VList gates) ->
  ValidationWorkflowTool.errors (ValidationWorkflowTool.run now proposal)
  = (empty_field_error "resources" resources
     ++ empty_field_error "validation_gates" gates)%list
  /\ (In no_resources_warning
         (ValidationWorkflowTool.warnings (ValidationWorkflowTool.run now proposal))
      <-> resources = [])
  /\ (In no_gates_warning
         (ValidationWorkflowTool.warnings (ValidationWorkflowTool.run now proposal))
      <-> gates = [])
  /\ (ValidationWorkflowTool.valid (ValidationWorkflowTool.run now proposal) = true
      <-> resources <> [] /\ gates <> [])
  /\ (ValidationWorkflowTool.valid (ValidationWorkflowTool.run now proposal) = true
      <-> ValidationWorkflowTool.errors (ValidationWorkflowTool.run now proposal)
          = []).
Proof.
  intros Htitle Hphases Hsome Hwf Hres Hgates.
  destruct (run_well_formed now proposal title phases resources gates
              Htitle Hphases Hsome Hwf Hres Hgates)
    as (phase_warnings & Hprefix & Herrors & Hwarnings).
  assert (Hnot : forall msg, String.prefix "Phase[" msg = false ->
                             ~ In msg phase_warnings).
  { intros msg Hmsg Hin. rewrite Forall_forall in Hprefix.
    rewrite (Hprefix msg Hin) in Hmsg. discriminate. }
  split; [exact Herrors | split; [| split; [| split]]].
  - rewrite Hwarnings, in_app3. split.
    + intros [H | [H | H]].
      * now elim (Hnot no_resources_warning eq_refl).
      * destruct resources; [reflexivity | elim H].
      * destruct gates; [| elim H]. destruct H as [H | []]. discriminate H.
    + intros ->. right. left. now left.
  - rewrite Hwarnings, in_app3. split.
    + intros [H | [H | H]].
      * now elim (Hnot no_gates_warning eq_refl).
      * destruct resources; [| elim H]. destruct H as [H | []]. discriminate H.
      * destruct gates; [reflexivity | elim H].
    + intros ->. right. right. now left.
  - rewrite valid_iff_no_errors, Herrors.
    destruct resources, gates; cbn; split;
      try discriminate; try (intros [H1 H2]; congruence);
      intros _; split; discriminate.
  - apply valid_iff_no_errors.
Qed.

Lemma empty_lists_are_errors_witness :
  ValidationWorkflowTool.errors
    (ValidationWorkflowTool.run "t" proposal_without_resources)
  = [ "Field 'resources' must not be empty" ]
  /\ In no_resources_warning
        (ValidationWorkflowTool.warnings
           (ValidationWorkflowTool.run "t" proposal_without_resources)).
Proof.
  assert (Hwf : Forall well_formed_phase
                  [ VDict [ ("name", VStr "Analysis");
                            ("steps", str_list [ "Identify scope" ]);
                            ("outputs", str_list [ "scope_doc" ]) ] ]).
  { constructor; [| constructor].
    eexists. split; [reflexivity |]. repeat constructor. }
  destruct (empty_lists_are_errors "t" proposal_without_resources
              "Test proposal" _ [] (map VStr [ "All tests pass" ])
              eq_refl eq_refl ltac:(discriminate) Hwf eq_refl eq_refl)
    as (Herrors & Hwarning & _).
  split; [exact Herrors | now apply Hwarning].
Defined.

(** The unit tests of the generator. *)
Example test_proposal_generator_tool :
  (exists proposal,
     ProposalGeneratorTool.run "t" "Expose a REST API endpoint for health checks"
     = Ok proposal
     /\ exists resources,
          lookup proposal "resources" = Some (str_list resources)
          /\ In "network_access" resources)
  /\ (exists proposal,
        ProposalGeneratorTool.run "t" "Migrate existing sqlite database schema"
        = Ok proposal
        /\ exists resources,
             lookup proposal "resources" = Some (str_list resources)
             /\ In "database_access" resources)
  /\ ProposalGeneratorTool.run "t" ""
     = Raise (ValueError "task_description must not be empty")
  /\ ProposalGeneratorTool.run "t" "   "
     = Raise (ValueError "task_description must not be empty").
Proof.
  split; [| split; [| split; reflexivity]].
  - eexists. split; [vm_compute; reflexivity |].
    exists [ "repository_access"; "test_runner"; "network_access" ].
    split; [vm_compute; reflexivity | simpl; tauto].
  - eexists. split; [vm_compute; reflexivity |].
    exists [ "repository_access"; "test_runner"; "database_access" ].
    split; [vm_compute; reflexivity | simpl; tauto].
Qed.

(** The generator refuses exactly the empty and the whitespace-only
    descriptions. *)
Lemma generator_refuses (now description : string) :
  (description = EmptyString \/ whitespace_only description = true)
  <-> ProposalGeneratorTool.run now description
      = Raise (ValueError "task_description must not be empty").
Proof.
  unfold ProposalGeneratorTool.run. split.
  - intros [-> | Hws]; [reflexivity |].
    apply strip_empty in Hws. rewrite Hws. cbn [Text.nonempty negb].
    now rewrite orb_true_r.
  - destruct (Text.nonempty description) eqn:E1; cbn [negb orb].
    + destruct (Text.nonempty (Text.strip description)) eqn:E2; cbn [negb].
      * discriminate.
      * intros _. right. apply strip_empty.
        destruct (Text.strip description); [reflexivity | discriminate].
    + intros _. left. destruct description; [reflexivity | discriminate].
Qed.

Lemma infer_resources_two (description : string) :
  exists more,
    ProposalGeneratorTool._infer_resources description
    = "repository_access" :: "test_runner" :: more.
Proof.
  unfold ProposalGeneratorTool._infer_resources.
  repeat match goal with
         | |- context [if ?b then _ else _] => destruct b
         end; cbn [app]; eexists; reflexivity.
Qed.

Lemma build_phases_well_formed (description : string) :
  Forall well_formed_phase
         (map VDict (ProposalGeneratorTool._build_phases description)).
Proof.
  unfold ProposalGeneratorTool._build_phases. cbn [map].
  repeat constructor; eexists; (split; [reflexivity | repeat constructor]).
Qed.

(** C4. For every description that is neither empty nor whitespace-only
    the generator returns a proposal, and the validator's report on
    that proposal has [valid = true]. *)
Theorem generated_proposals_validate (now now' description : string) :
  description <> EmptyString ->
  whitespace_only description = false ->
  exists proposal,
    ProposalGeneratorTool.run now description = Ok proposal
    /\ ValidationWorkflowTool.valid (ValidationWorkflowTool.run now' proposal)
       = true.
Proof.
  intros Hne Hws.
  assert (Hstrip : Text.nonempty (Text.strip description) = true).
  { apply nonempty_iff. intros H. apply strip_empty in H. congruence. }
  apply nonempty_iff in Hne.
  unfold ProposalGeneratorTool.run. rewrite Hne, Hstrip. cbn [negb orb].
  eexists. split; [reflexivity |].
  destruct (infer_resources_two (Text.strip description)) as (more & Hres).
  apply valid_iff_no_errors.
  match goal with
  | |- ValidationWorkflowTool.errors (ValidationWorkflowTool.run _ ?p) = [] =>
      destruct (run_well_formed now' p
                  (ProposalGeneratorTool._extract_title (Text.strip description))
                  (map VDict
                     (ProposalGeneratorTool._build_phases (Text.strip description)))
                  (map VStr
                     (ProposalGeneratorTool._infer_resources
                        (Text.strip description)))
                  (map VStr
                     (ProposalGeneratorTool._build_validation_gates
                        (ProposalGeneratorTool._extract_title
                           (Text.strip description))))
                  eq_refl eq_refl ltac:(discriminate)
                  (build_phases_well_formed _) eq_refl eq_refl)
        as (phase_warnings & _ & Herrors & _)
  end.
  rewrite Herrors, Hres. reflexivity.
Qed.

Lemma generated_proposals_validate_witness :
  exists proposal,
    ProposalGeneratorTool.run "t" "Refactor the authentication module"
    = Ok proposal
    /\ ValidationWorkflowTool.valid (ValidationWorkflowTool.run "u" proposal)
       = true.
Proof.
  apply (generated_proposals_validate "t" "u"
           "Refactor the authentication module").
  - discriminate.
  - reflexivity.
Defined.

End ProposalPipeline.

(* ================================================================== *)
(** * Further properties of mode detection                              *)
(* ================================================================== *)

Section ModeDetectionMore.

Import ModeTransitions Spec.

Lemma lower_char_idempotent (c : ascii) :
  Text.lower_char (Text.lower_char c) = Text.lower_char c.
Proof.
  destruct c as [b0 b1 b2 b3 b4 b5 b6 b7].
  destruct b0, b1, b2, b3, b4, b5, b6, b7; reflexivity.
Qed.

Lemma lower_idempotent (s : string) : Text.lower (Text.lower s) = Text.lower s.
Proof.
  induction s as [| c s IH]; simpl; [reflexivity |].
  now rewrite lower_char_idempotent, IH.
Qed.

Lemma lower_append (s t : string) :
  Text.lower (s ++ t) = Text.lower s ++ Text.lower t.
Proof.
  induction s as [| c s IH]; simpl; [reflexivity | now rewrite IH].
Qed.

Lemma contains_inside (needle before text after : string) :
  Text.contains needle text = true ->
  Text.contains needle (before ++ text ++ after) = true.
Proof.
  intros H. apply contains_spec in H. destruct H as (pre & post & ->).
  apply contains_spec. exists (before ++ pre), (post ++ after).
  clear. induction before as [| c before IH]; simpl.
  - induction pre as [| c pre IH]; simpl.
    + induction needle as [| c needle IH]; simpl; [reflexivity | now rewrite IH].
    + now rewrite IH.
  - now rewrite IH.
Qed.

Lemma mentions_inside (phrases : list string) (before text after : string) :
  mentions phrases text -> mentions phrases (before ++ text ++ after).
Proof.
  intros (phrase & Hin & Hc). exists phrase. split; [exact Hin |].
  rewrite !lower_append. now apply contains_inside.
Qed.

(** X1. Detection is stable: detecting again on the same text, from the
    mode just detected, gives that mode. *)
Theorem detect_mode_switch_idempotent (text current : string) :
  detect_mode_switch text (detect_mode_switch text current)
  = detect_mode_switch text current.
Proof.
  unfold detect_mode_switch.
  destruct (Text.any_in ADMINISTRATIVE_PHRASES (Text.lower text));
    [reflexivity |].
  destruct (Text.any_in COMPANION_PHRASES (Text.lower text)); [reflexivity |].
  destruct (Text.any_in TASK_INDICATORS (Text.lower text)); reflexivity.
Qed.

(** X2. Detection does not look at the case of the letters: the
    lower-cased text is classified like the text. *)
Theorem detect_mode_switch_ignores_case (text current : string) :
  detect_mode_switch (Text.lower text) current
  = detect_mode_switch text current.
Proof.
  unfold detect_mode_switch. now rewrite lower_idempotent.
Qed.

(** X3. An administrative phrase cannot be masked: a text that contains
    one gives Administrative whatever is written before and after it. *)
Theorem detect_mode_switch_admin_anywhere (before text after current : string) :
  mentions ADMINISTRATIVE_PHRASES text ->
  detect_mode_switch (before ++ text ++ after) current = ADMINISTRATIVE.
Proof.
  intros H.
  apply (mentions_inside ADMINISTRATIVE_PHRASES before text after) in H.
  apply any_in_mentions in H.
  unfold detect_mode_switch. now rewrite H.
Qed.

Lemma detect_mode_switch_admin_anywhere_witness :
  detect_mode_switch
    ("please refactor the code, then " ++ "Ariadne, Admin Mode" ++ " now")
    COMPANION
  = ADMINISTRATIVE.
Proof.
  apply (detect_mode_switch_admin_anywhere
           "please refactor the code, then " "Ariadne, Admin Mode" " now"
           COMPANION).
  exists "ariadne, admin mode". split; [simpl; tauto | reflexivity].
Defined.

(** X4. Detection keeps the mode a mode: from one of the three modes it
    answers one of the three modes, for every text. *)
Theorem detect_mode_switch_closed (text current : string) :
  In current [OPERATIONAL; COMPANION; ADMINISTRATIVE] ->
  In (detect_mode_switch text current) [OPERATIONAL; COMPANION; ADMINISTRATIVE]
  /\ (detect_mode_switch text current <> current ->
      mentions ADMINISTRATIVE_PHRASES text
      \/ mentions COMPANION_PHRASES text
      \/ mentions TASK_INDICATORS text).
Proof.
  intros H. unfold detect_mode_switch.
  destruct (Text.any_in ADMINISTRATIVE_PHRASES (Text.lower text)) eqn:Ea.
  { split; [simpl; tauto |]. intros _. left. now apply any_in_mentions. }
  destruct (Text.any_in COMPANION_PHRASES (Text.lower text)) eqn:Ec.
  { split; [simpl; tauto |]. intros _. right. left. now apply any_in_mentions. }
  destruct (Text.any_in TASK_INDICATORS (Text.lower text)) eqn:Et.
  { split; [simpl; tauto |]. intros _. right. right. now apply any_in_mentions. }
  split; [exact H | intros Hne; now elim Hne].
Qed.

Lemma detect_mode_switch_closed_witness :
  In (detect_mode_switch "hello there" COMPANION)
     [OPERATIONAL; COMPANION; ADMINISTRATIVE].
Proof.
  apply (detect_mode_switch_closed "hello there" COMPANION).
  simpl; tauto.
Defined.

End ModeDetectionMore.

(* ================================================================== *)
(** * Further properties of the override gateway                        *)
(* ================================================================== *)

Section OverrideGatewayMore.

Import Workspace StateOverrideTool Spec.



Lemma length_append (s t : string) :
  String.length (s ++ t) = (String.length s + String.length t)%nat.
Proof. induction s as [| c s IH]; simpl; [reflexivity | now rewrite IH]. Qed.


Lemma run_keeps_configuration (env : environ) (ts : string) (ws : workspace)
    (target_state credential : string) :
  agents_ariadne_yaml (snd (run env ts ws target_state credential))
  = agents_ariadne_yaml ws
  /\ ai_ariadne_guardrails_ts (snd (run env ts ws target_state credential))
     = ai_ariadne_guardrails_ts ws.
Proof.
  unfold run.
  destruct (Text.mem target_state _VALID_STATES); cbn [negb snd];
    [destruct (_validate_token env credential) |]; split; reflexivity.
Qed.

(** X5. The gateway answers [ok] only to a valid target state with a
    credential whose digest matches the configured reference, and it
    always does so then. *)
Theorem override_ok_iff (env : environ) (ts : string) (ws : workspace)
    (target_state credential : string) :
  status (fst (run env ts ws target_state credential)) = "ok"
  <-> In target_state _VALID_STATES /\ digest_matches env credential.
Proof.
  rewrite <- validate_token_iff, <- mem_In. unfold run.
  destruct (Text.mem target_state _VALID_STATES); cbn [negb fst status].
  - destruct (_validate_token env credential); cbn [negb fst status].
    + tauto.
    + split; [discriminate | intros [_ H]; discriminate H].
  - split; [discriminate | intros [H _]; discriminate H].
Qed.




Lemma existsb_pointwise {A : Type} (f g : A -> bool) (xs : list A) :
  (forall x, f x = g x) -> existsb f xs = existsb g xs.
Proof.
  intros H. induction xs as [| x xs IH]; simpl; [reflexivity |].
  now rewrite H, IH.
Qed.

Lemma audit_run_depends (now : string) (ws ws' : workspace) :
  agents_ariadne_yaml ws' = agents_ariadne_yaml ws ->
  ai_ariadne_guardrails_ts ws' = ai_ariadne_guardrails_ts ws ->
  ConstraintAuditTool.run now ws' = ConstraintAuditTool.run now ws.
Proof.
  intros Hy Hg. unfold ConstraintAuditTool.run. rewrite !audit_loop, Hy, Hg.
  assert (Hcheck : forall name a g,
             ConstraintAuditTool._check_constraint ws' name a g
             = ConstraintAuditTool._check_constraint ws name a g).
  { intros name a g. unfold ConstraintAuditTool._check_constraint.
    now rewrite Hy, Hg. }
  assert (Hneeds : forall a g name,
             needs_attention ws' a g name = needs_attention ws a g name).
  { intros a g name. unfold needs_attention. now rewrite Hcheck. }
  cbn [fst snd app orb].
  rewrite (map_ext _ _ (fun name => f_equal _ (Hcheck name _ _))).
  rewrite (existsb_pointwise _ _ _ (Hneeds _ _)).
  reflexivity.
Qed.

(** X8. Overrides do not disturb the constraint audit: after any
    sequence of calls to the gateway the audit reports what it reported
    before. *)
Theorem audit_unaffected_by_overrides
    (calls : list call) (now : string) (ws : workspace) :
  ConstraintAuditTool.run now (after_calls calls ws)
  = ConstraintAuditTool.run now ws.
Proof.
  revert ws. induction calls as [| c calls IH]; intros ws; [reflexivity |].
  cbn [after_calls fold_left]. fold (after_calls calls (after_call ws c)).
  rewrite IH. unfold after_call.
  destruct (run_keeps_configuration (call_env c) (call_ts c) ws
              (call_target c) (call_token c)) as [Hy Hg].
  now apply audit_run_depends.
Qed.

(** X30. The gateway writes to the notes file only: after any sequence
    of calls the configuration, the guardrails, the proposals and the
    tools directory are as they were. *)
Theorem overrides_touch_log_only (calls : list call) (ws : workspace) :
  agents_ariadne_yaml (after_calls calls ws) = agents_ariadne_yaml ws
  /\ ai_ariadne_guardrails_ts (after_calls calls ws)
     = ai_ariadne_guardrails_ts ws
  /\ ariadne_proposals (after_calls calls ws) = ariadne_proposals ws
  /\ tools_dir (after_calls calls ws) = tools_dir ws.
Proof.
  revert ws. induction calls as [| c calls IH]; intros ws.
  - repeat split.
  - cbn [after_calls fold_left]. fold (after_calls calls (after_call ws c)).
    destruct (IH (after_call ws c)) as (-> & -> & -> & ->).
    unfold after_call.
    exact (override_touches_log_only (call_env c) (call_ts c) ws
             (call_target c) (call_token c)).
Qed.

Lemma all_chars_append (p : ascii -> bool) (s t : string) :
  all_chars p (s ++ t) = all_chars p s && all_chars p t.
Proof.
  induction s as [| c s IH]; simpl; [reflexivity |].
  now rewrite IH, andb_assoc.
Qed.

Lemma hex_digit_lower (v : Z) :
  (0 <= v < 16)%Z -> is_lower_hex (SHA256.hex_digit v) = true.
Proof.
  intros H.
  assert (Hcases : In v [0; 1; 2; 3; 4; 5; 6; 7; 8; 9; 10; 11; 12; 13; 14; 15]%Z).
  { destruct v as [| p | p]; [now left | | exfalso; now destruct H].
    do 4 (destruct p as [p | p |]; [| | simpl; tauto]);
      exfalso; destruct H as [_ H]; revert H; now destruct p. }
  simpl in Hcases.
  repeat destruct Hcases as [<- | Hcases]; try reflexivity. elim Hcases.
Qed.

Lemma hex_word_lower (nibbles : nat) (v : Z) :
  all_chars is_lower_hex (SHA256.hex_word nibbles v) = true.
Proof.
  induction nibbles as [| k IH]; [reflexivity |].
  cbn [SHA256.hex_word all_chars]. rewrite IH, andb_true_r.
  apply hex_digit_lower. change 0xf%Z with (Z.ones 4).
  rewrite Z.land_ones by discriminate.
  apply Z.mod_pos_bound. reflexivity.
Qed.

Lemma hex_word_length (nibbles : nat) (v : Z) :
  String.length (SHA256.hex_word nibbles v) = nibbles.
Proof. induction nibbles as [| k IH]; simpl; [reflexivity | now rewrite IH]. Qed.

Lemma concat_hex_words (words : list Z) :
  all_chars is_lower_hex
    (String.concat EmptyString (map (SHA256.hex_word 8) words)) = true
  /\ String.length (String.concat EmptyString (map (SHA256.hex_word 8) words))
     = (8 * List.length words)%nat.
Proof.
  induction words as [| w words [IHc IHl]]; [split; reflexivity |].
  cbn [map String.concat List.length].
  destruct (map (SHA256.hex_word 8) words) as [| x xs] eqn:E.
  - destruct words; [| discriminate E]. split.
    + apply hex_word_lower.
    + now rewrite hex_word_length.
  - change (EmptyString ++ String.concat EmptyString (x :: xs))
      with (String.concat EmptyString (x :: xs)).
    rewrite all_chars_append, length_append, hex_word_lower, hex_word_length.
    rewrite IHc, IHl. split; [reflexivity |].
    rewrite Nat.mul_succ_r. apply Nat.add_comm.
Qed.

Lemma compress_length (h block : list Z) :
  List.length h = 8%nat -> List.length (SHA256.compress h block) = 8%nat.
Proof.
  intros H. unfold SHA256.compress.
  now rewrite length_map, length_combine, H.
Qed.

Lemma blocks_length (count : nat) (h words : list Z) :
  List.length h = 8%nat -> List.length (SHA256.blocks count h words) = 8%nat.
Proof.
  revert h words. induction count as [| k IH]; intros h words H; [exact H |].
  cbn [SHA256.blocks]. apply IH. now apply compress_length.
Qed.

(** The digest is a text of sixty-four lower-case hexadecimal digits. *)
Lemma hexdigest_shape (token : string) :
  all_chars is_lower_hex (SHA256.hexdigest token) = true
  /\ String.length (SHA256.hexdigest token) = 64%nat.
Proof.
  unfold SHA256.hexdigest.
  destruct (concat_hex_words (SHA256.digest (SHA256.encode token))) as [Hc Hl].
  split; [exact Hc |]. rewrite Hl. unfold SHA256.digest.
  now rewrite blocks_length.
Qed.

Lemma lower_upper_hex (s : string) :
  all_chars is_lower_hex s = true ->
  Text.lower s = s /\ Text.lower (upper s) = s.
Proof.
  induction s as [| c s IH]; [split; reflexivity |].
  cbn [all_chars Text.lower upper]. intros H.
  apply andb_true_iff in H. destruct H as [Hc Hs].
  destruct (IH Hs) as [-> ->].
  assert (Hchar : Text.lower_char c = c
                  /\ Text.lower_char (upper_char c) = c).
  { revert Hc. destruct c as [b0 b1 b2 b3 b4 b5 b6 b7].
    destruct b0, b1, b2, b3, b4, b5, b6, b7;
      (discriminate || (intros _; split; reflexivity)). }
  destruct Hchar as [-> ->]. split; reflexivity.
Qed.

(** X9. The documented set-up works for every token: with the variable
    set to the SHA-256 hex digest of a token, in lower case as
    [sha256sum] prints it or in upper case, the gateway answers [ok] to
    that token for every valid target state. *)
Theorem override_accepts_own_digest (ts : string) (ws : workspace)
    (target_state token : string) :
  In target_state _VALID_STATES ->
  status (fst (run [(_TOKEN_HASH_ENV_VAR, SHA256.hexdigest token)] ts ws
                   target_state token)) = "ok"
  /\ status (fst (run [(_TOKEN_HASH_ENV_VAR, upper (SHA256.hexdigest token))]
                      ts ws target_state token)) = "ok".
Proof.
  intros Hin.
  destruct (hexdigest_shape token) as [Hhex Hlen].
  destruct (lower_upper_hex _ Hhex) as [Hlower Hupper].
  assert (Hne : SHA256.hexdigest token <> EmptyString).
  { intros H. rewrite H in Hlen. discriminate Hlen. }
  split; (rewrite run_applied; [reflexivity | exact Hin |]);
    apply validate_token_iff; unfold digest_matches;
    rewrite reference_digest_set.
  - split; [exact Hne | now rewrite Hlower].
  - split; [| now rewrite Hupper].
    intros H. destruct (SHA256.hexdigest token); [now elim Hne | discriminate H].
Qed.

Lemma override_accepts_own_digest_witness :
  status (fst (run [(_TOKEN_HASH_ENV_VAR,
                     upper (SHA256.hexdigest "zeroclaw_audit_token"))]
                   "t" empty_workspace "companion" "zeroclaw_audit_token"))
  = "ok".
Proof.
  apply (override_accepts_own_digest "t" empty_workspace
           "companion" "zeroclaw_audit_token").
  simpl; tauto.
Defined.

End OverrideGatewayMore.

(* ================================================================== *)
(** * Further properties of the constraint audit                        *)
(* ================================================================== *)

Section ConstraintAuditMore.

Import Workspace ConstraintAuditTool Spec.

Lemma check_active_direct (ws : workspace) (name : string) :
  Text.mem name _VERIFIABLE_VIA_GUARDRAILS = false ->
  _check_constraint ws name (exists_ (agents_ariadne_yaml ws))
                    (exists_ (ai_ariadne_guardrails_ts ws)) = "active"
  <-> exists yaml,
        agents_ariadne_yaml ws = Present true yaml
        /\ Text.contains name yaml = true.
Proof.
  intros Hdirect. unfold _check_constraint. rewrite Hdirect.
  destruct (agents_ariadne_yaml ws) as [| [|] yaml]; cbn [exists_ negb read_text].
  - split; [discriminate | intros (y & H & _); discriminate H].
  - destruct (Text.contains name yaml) eqn:E.
    + split; [intros _; now exists yaml | reflexivity].
    + split; [discriminate |].
      intros (y & H & Hy). injection H as <-. congruence.
  - split; [discriminate | intros (y & H & _); discriminate H].
Qed.

Lemma check_active_delegated (ws : workspace) (name : string) :
  Text.mem name _VERIFIABLE_VIA_GUARDRAILS = true ->
  _check_constraint ws name (exists_ (agents_ariadne_yaml ws))
                    (exists_ (ai_ariadne_guardrails_ts ws)) = "active"
  <-> agents_ariadne_yaml ws <> Missing
      /\ exists guardrails,
           ai_ariadne_guardrails_ts ws = Present true guardrails
           /\ Text.contains "BANNED_PATTERNS" guardrails = true.
Proof.
  intros Hdelegated. unfold _check_constraint. rewrite Hdelegated.
  destruct (agents_ariadne_yaml ws) as [| r yaml]; cbn [exists_ negb].
  - split; [discriminate | intros [H _]; now elim H].
  - destruct (ai_ariadne_guardrails_ts ws) as [| [|] guardrails];
      cbn [exists_ negb read_text].
    + split; [discriminate | intros (_ & g & H & _); discriminate H].
    + destruct (Text.contains "BANNED_PATTERNS" guardrails) eqn:E.
      * split; [| reflexivity]. intros _.
        split; [discriminate | now exists guardrails].
      * split; [discriminate |].
        intros (_ & g & H & Hg). injection H as <-. congruence.
    + split; [discriminate | intros (_ & g & H & _); discriminate H].
Qed.

Lemma needs_attention_false (ws : workspace) (a g : bool) (name : string) :
  needs_attention ws a g name = false
  <-> _check_constraint ws name a g = "active".
Proof.
  unfold needs_attention. rewrite negb_false_iff. apply String.eqb_eq.
Qed.


(** X11. The audit reports no drift exactly in the compliant
    workspaces: [agents/ariadne.yaml] is readable and contains the name
    of every constraint that is not delegated, and [guardrails.ts] is
    readable and contains [BANNED_PATTERNS].  The name of the delegated
    constraint need not appear in the configuration. *)
Theorem audit_compliant_iff (now : string) (ws : workspace) :
  drift_detected (run now ws) = false
  <-> exists yaml guardrails,
        agents_ariadne_yaml ws = Present true yaml
        /\ ai_ariadne_guardrails_ts ws = Present true guardrails
        /\ Text.contains "BANNED_PATTERNS" guardrails = true
        /\ forall name,
             In name _DECLARED_CONSTRAINTS ->
             ~ In name _VERIFIABLE_VIA_GUARDRAILS ->
             Text.contains name yaml = true.
Proof.
  rewrite run_drift_detected, existsb_false_iff. split.
  - intros Hall.
    assert (H1 := Hall "no_cross_state_context_leakage" ltac:(simpl; tauto)).
    assert (H4 := Hall "no_explicit_content" ltac:(simpl; tauto)).
    rewrite needs_attention_false in H1, H4.
    apply (check_active_direct ws "no_cross_state_context_leakage" eq_refl)
      in H1.
    apply (check_active_delegated ws "no_explicit_content" eq_refl) in H4.
    destruct H1 as (yaml & Hyaml & _).
    destruct H4 as (_ & guardrails & Hguard & Hmarker).
    exists yaml, guardrails. repeat split; try assumption.
    intros name Hin Hdirect.
    specialize (Hall name Hin). rewrite needs_attention_false in Hall.
    apply check_active_direct in Hall.
    + destruct Hall as (y & Hy & Hc). congruence.
    + destruct (Text.mem name _VERIFIABLE_VIA_GUARDRAILS) eqn:E;
        [| reflexivity].
      apply mem_In in E. contradiction.
  - intros (yaml & guardrails & Hyaml & Hguard & Hmarker & Hnames) name Hin.
    apply needs_attention_false.
    destruct (Text.mem name _VERIFIABLE_VIA_GUARDRAILS) eqn:E.
    + apply check_active_delegated; [exact E |].
      split; [congruence | now exists guardrails].
    + apply check_active_direct; [exact E |].
      exists yaml. split; [exact Hyaml |]. apply Hnames; [exact Hin |].
      intros Hv. apply mem_In in Hv. congruence.
Qed.

Lemma filter_nil_iff {A : Type} (f : A -> bool) (xs : list A) :
  filter f xs = [] <-> existsb f xs = false.
Proof.
  induction xs as [| x xs IH]; simpl; [tauto |].
  destruct (f x); simpl; [split; discriminate | exact IH].
Qed.

(** X12. The summary counts the records that are not active: without
    drift it reads "All constraints active." and no record needs
    attention; with drift it starts with the number of records whose
    status is not ["active"], a number from 1 to 4. *)
Theorem audit_summary (now : string) (ws : workspace) :
  (drift_detected (run now ws) = false ->
     summary (run now ws) = "All constraints active."
     /\ attention_count (constraints (run now ws)) = 0)
  /\ (drift_detected (run now ws) = true ->
     summary (run now ws)
     = Text.decimal (attention_count (constraints (run now ws)))
       ++ " constraint(s) require attention."
     /\ 1 <= attention_count (constraints (run now ws)) <= 4).
Proof.
  assert (Hsummary :
            summary (run now ws)
            = if negb (drift_detected (run now ws))
              then "All constraints active."
              else Text.decimal (attention_count (constraints (run now ws)))
                   ++ " constraint(s) require attention.").
  { unfold run. rewrite audit_loop. reflexivity. }
  assert (Hcount :
            attention_count (constraints (run now ws)) = 0
            <-> drift_detected (run now ws) = false).
  { unfold attention_count. rewrite length_zero_iff_nil, filter_nil_iff.
    rewrite run_constraints, run_drift_detected.
    set (a := exists_ (agents_ariadne_yaml ws)).
    set (g := exists_ (ai_ariadne_guardrails_ts ws)).
    induction _DECLARED_CONSTRAINTS as [| name names IH]; [tauto |].
    cbn [map existsb status]. unfold needs_attention at 1.
    destruct (negb (String.eqb (_check_constraint ws name a g) "active"));
      [tauto | exact IH]. }
  assert (Hbound : attention_count (constraints (run now ws)) <= 4).
  { unfold attention_count.
    etransitivity; [apply filter_length_le |].
    rewrite run_constraints, length_map. apply Nat.le_refl. }
  split; intros Hdrift; rewrite Hsummary, Hdrift; cbn [negb].
  - split; [reflexivity | now apply Hcount].
  - split; [reflexivity |]. split; [| exact Hbound].
    assert (Hnz : attention_count (constraints (run now ws)) <> 0).
    { intros H0. apply Hcount in H0. congruence. }
    clear Hcount Hbound Hsummary.
    destruct (attention_count (constraints (run now ws)));
      [now elim Hnz | apply le_n_S, Nat.le_0_l].
Qed.

Lemma audit_summary_witness :
  summary (run "t" yaml_only_workspace)
  = Text.decimal (attention_count (constraints (run "t" yaml_only_workspace)))
    ++ " constraint(s) require attention."
  /\ 1 <= attention_count (constraints (run "t" yaml_only_workspace)) <= 4.
Proof.
  apply (proj2 (audit_summary "t" yaml_only_workspace)).
  vm_compute. reflexivity.
Defined.

(** X13. Every status is one of three kinds.  It is ["active"], or it
    starts with "unverifiable", or it starts with "drift"; and "drift"
    is only given to a constraint that is not delegated, when the
    configuration could be read and does not contain its name. *)
Theorem audit_status_kinds (now : string) (ws : workspace) :
  Forall (fun e =>
            status e = "active"
            \/ String.prefix "unverifiable — " (status e) = true
            \/ (String.prefix "drift — " (status e) = true
                /\ ~ In (constraint e) _VERIFIABLE_VIA_GUARDRAILS
                /\ exists yaml,
                     agents_ariadne_yaml ws = Present true yaml
                     /\ Text.contains (constraint e) yaml = false))
         (constraints (run now ws)).
Proof.
  rewrite run_constraints. apply Forall_forall. intros e He.
  apply in_map_iff in He. destruct He as (name & <- & _).
  cbn [status constraint]. unfold _check_constraint.
  destruct (agents_ariadne_yaml ws) as [| [|] yaml] eqn:Ey;
    cbn [exists_ negb read_text]; [right; left; reflexivity | |].
  - destruct (Text.mem name _VERIFIABLE_VIA_GUARDRAILS) eqn:Ev.
    + destruct (ai_ariadne_guardrails_ts ws) as [| [|] guardrails];
        cbn [exists_ negb read_text]; try (right; left; reflexivity).
      destruct (Text.contains "BANNED_PATTERNS" guardrails);
        [left; reflexivity | right; left; reflexivity].
    + destruct (Text.contains name yaml) eqn:Ec; [left; reflexivity |].
      right. right. split; [apply (prefix_append "drift — ") |].
      split; [| now exists yaml].
      intros Hv. apply mem_In in Hv. congruence.
  - destruct (Text.mem name _VERIFIABLE_VIA_GUARDRAILS) eqn:Ev.
    + destruct (ai_ariadne_guardrails_ts ws) as [| [|] guardrails];
        cbn [exists_ negb read_text]; try (right; left; reflexivity).
      destruct (Text.contains "BANNED_PATTERNS" guardrails);
        [left; reflexivity | right; left; reflexivity].
    + right. left. reflexivity.
Qed.



End ConstraintAuditMore.

(* ================================================================== *)
(** * Further properties of the diagnostics and of the deployment checks *)
(* ================================================================== *)

Section DiagnosticsMore.

Import Workspace SystemDiagnosticsTool Spec.

(** The deployment check of the mode transitions passes on every case
    of its table. *)
Example validate_mode_transitions_pass :
  forallb ValidateAgent.passed ValidateAgent.validate_mode_transitions = true.
Proof. vm_compute. reflexivity. Qed.

Lemma forall_map_iff {A B : Type} (f : A -> B) (P : B -> Prop) (xs : list A) :
  Forall P (map f xs) <-> forall x, In x xs -> P (f x).
Proof.
  rewrite Forall_forall. split.
  - intros H x Hin. apply H. now apply in_map.
  - intros H y Hy. apply in_map_iff in Hy. destruct Hy as (x & <- & Hin).
    now apply H.
Qed.

Lemma available_iff (ws : workspace) (tool_name : string) :
  (if Text.mem (tool_name ++ ".py") (tools_dir ws)
   then "available" else "missing") = "available"
  <-> In (tool_name ++ ".py") (tools_dir ws).
Proof.
  rewrite <- mem_In.
  destruct (Text.mem (tool_name ++ ".py") (tools_dir ws));
    split; (reflexivity || discriminate).
Qed.

(** X15. The tools section names the seven expected tools in their
    order, and no tool is reported missing exactly when the module file
    of each of them is in the tools directory. *)
Theorem tool_availability_complete (ws : workspace) :
  map fst (_tool_availability ws) = _EXPECTED_TOOLS
  /\ (Forall (fun item => snd item = "available") (_tool_availability ws)
      <-> forall tool_name,
            In tool_name _EXPECTED_TOOLS ->
            In (tool_name ++ ".py") (tools_dir ws)).
Proof.
  unfold _tool_availability. split.
  - rewrite map_map. cbn [fst]. apply map_id.
  - rewrite forall_map_iff. cbn [snd]. split.
    + intros H tool_name Hin. now apply available_iff, H.
    + intros H tool_name Hin. now apply available_iff, H.
Qed.

(** X16. The deployment check of the tool files and the tools section
    of the snapshot agree: every file check passes exactly when the
    snapshot reports every tool available. *)
Theorem tool_checks_agree (tools_path : string) (ws : workspace) :
  Forall (fun r => ValidateAgent.passed r = true)
         (ValidateAgent.validate_tool_files tools_path ws)
  <-> Forall (fun item => snd item = "available") (_tool_availability ws).
Proof.
  unfold ValidateAgent.validate_tool_files, _tool_availability.
  change ValidateAgent.expected_tool_files
    with (map (fun tool_name => tool_name ++ ".py") _EXPECTED_TOOLS).
  rewrite map_map, !forall_map_iff.
  unfold ValidateAgent.passed. cbn [fst snd].
  split; intros H tool_name Hin.
  - apply available_iff, mem_In. now apply H.
  - apply mem_In, available_iff. now apply H.
Qed.






End DiagnosticsMore.

(* ================================================================== *)
(** * Further properties of the validator                               *)
(* ================================================================== *)

Section ValidatorMore.

Import Py ValidationWorkflowTool Spec.

(** Each check only appends to the lists it is given. *)
Lemma check_field_appends (proposal : dict) (errors : list string)
    (entry : string * pytype) :
  check_field proposal errors entry
  = (errors ++ check_field proposal [] entry)%list.
Proof.
  destruct entry as [field expected_type]. unfold check_field, append.
  destruct (lookup proposal field) as [v |]; [| reflexivity].
  destruct (negb (isinstance v expected_type)); [reflexivity |].
  destruct (_ && _); [reflexivity | now rewrite app_nil_r].
Qed.

Lemma required_fields_appends (proposal : dict) (fields : list (string * pytype))
    (errors : list string) :
  fold_left (check_field proposal) fields errors
  = (errors ++ flat_map (check_field proposal []) fields)%list.
Proof.
  revert errors. induction fields as [| entry fields IH]; intros errors.
  - simpl. now rewrite app_nil_r.
  - cbn [fold_left flat_map]. rewrite IH, check_field_appends.
    now rewrite app_assoc.
Qed.

Lemma check_phase_appends (i : nat) (phase : value)
    (errors warnings : list string) :
  check_phase i phase (errors, warnings)
  = ((errors ++ fst (check_phase i phase ([], [])))%list,
     (warnings ++ snd (check_phase i phase ([], [])))%list).
Proof.
  unfold check_phase, append.
  destruct phase as [| b | n | s | items | fields];
    cbn [fst snd app]; rewrite ?app_nil_r; try reflexivity.
  destruct (missing_keys fields);
    destruct (negb (truthy (get fields "steps" VNone)));
    cbn [fst snd app]; rewrite ?app_nil_r; reflexivity.
Qed.

Lemma check_phases_appends (phases : list value) :
  forall (i : nat) (errors warnings : list string),
  check_phases_from i phases (errors, warnings)
  = ((errors ++ fst (check_phases_from i phases ([], [])))%list,
     (warnings ++ snd (check_phases_from i phases ([], [])))%list).
Proof.
  induction phases as [| phase phases IH]; intros i errors warnings.
  - simpl. now rewrite !app_nil_r.
  - cbn [check_phases_from].
    rewrite (check_phase_appends i phase errors warnings).
    rewrite (check_phase_appends i phase [] []). cbn [app].
    rewrite IH.
    rewrite (IH (S i) (fst (check_phase i phase ([], [])))
                (snd (check_phase i phase ([], [])))).
    cbn [fst snd]. now rewrite !app_assoc.
Qed.

(** The findings on a list of phases: those on the first phase, then
    those on the others with the next index. *)
Lemma check_phases_cons (i : nat) (phase : value) (phases : list value) :
  check_phases_from i (phase :: phases) ([], [])
  = ((fst (check_phase i phase ([], []))
      ++ fst (check_phases_from (S i) phases ([], [])))%list,
     (snd (check_phase i phase ([], []))
      ++ snd (check_phases_from (S i) phases ([], [])))%list).
Proof.
  cbn [check_phases_from].
  rewrite (check_phase_appends i phase [] []). cbn [app].
  now rewrite check_phases_appends.
Qed.

(** The errors of a report: those on the required fields, then those on
    the phases. *)
Lemma run_errors (now : string) (proposal : dict) :
  errors (run now proposal)
  = (flat_map (check_field proposal []) _REQUIRED_FIELDS
     ++ fst (_check_phases (get proposal "phases" (VList [])) [] []))%list.
Proof.
  unfold run, _check_required_fields.
  rewrite required_fields_appends. cbn [app].
  unfold _check_phases.
  destruct (get proposal "phases" (VList [])) as [| b | n | s | items | fields];
    cbn [errors fst]; rewrite ?app_nil_r; try reflexivity.
  rewrite check_phases_appends. reflexivity.
Qed.

(** The warnings of a report: those on the phases first. *)
Lemma run_warnings_start (now : string) (proposal : dict) :
  exists others,
    warnings (run now proposal)
    = (snd (_check_phases (get proposal "phases" (VList [])) [] [])
       ++ others)%list.
Proof.
  unfold run, _check_required_fields, _check_phases.
  destruct (get proposal "phases" (VList [])) as [| b | n | s | items | fields].
  1-4, 6: cbn [warnings snd app]; eexists; reflexivity.
  rewrite check_phases_appends. cbn [warnings snd app].
  unfold _check_resources, _check_validation_gates, append.
  destruct (get proposal "resources" (VList [])) as [| | | | [|] |];
    destruct (get proposal "validation_gates" (VList [])) as [| | | | [|] |];
    rewrite <- ?app_assoc; eexists; try reflexivity;
    now rewrite app_nil_r.
Qed.

(** The findings on the phase of index [k]. *)
Lemma findings_at (phases : list value) :
  forall (k i : nat) (phase : value),
  nth_error phases k = Some phase ->
  (forall msg, In msg (fst (check_phase (i + k) phase ([], []))) ->
               In msg (fst (check_phases_from i phases ([], []))))
  /\ (forall msg, In msg (snd (check_phase (i + k) phase ([], []))) ->
                  In msg (snd (check_phases_from i phases ([], [])))).
Proof.
  induction phases as [| first phases IH]; intros k i phase Hk.
  - destruct k; discriminate Hk.
  - rewrite check_phases_cons. cbn [fst snd].
    destruct k as [| k]; cbn [nth_error] in Hk.
    + injection Hk as ->. rewrite Nat.add_0_r.
      split; intros msg H; apply in_or_app; now left.
    + destruct (IH k (S i) phase Hk) as [He Hw].
      rewrite Nat.add_succ_r. cbn [Nat.add] in He, Hw.
      split; intros msg H; apply in_or_app; right; [now apply He | now apply Hw].
Qed.

Lemma invalid_of_error (now : string) (proposal : dict) (msg : string) :
  In msg (errors (run now proposal)) -> valid (run now proposal) = false.
Proof.
  intros Hin. destruct (valid (run now proposal)) eqn:E; [| reflexivity].
  apply valid_iff_no_errors in E. rewrite E in Hin. elim Hin.
Qed.

Lemma required_field_finding (now : string) (proposal : dict)
    (field : string) (expected_type : pytype) (msg : string) :
  In (field, expected_type) _REQUIRED_FIELDS ->
  check_field proposal [] (field, expected_type) = [msg] ->
  In msg (errors (run now proposal)).
Proof.
  intros Hin Hmsg. rewrite run_errors. apply in_or_app. left.
  apply in_flat_map. exists (field, expected_type).
  split; [exact Hin | rewrite Hmsg; now left].
Qed.

(** X18. Every defect of a required field is reported and makes the
    report invalid: a field that is missing, a field whose value is not
    of the expected class, and a list field that is empty each give
    their own message. *)
Theorem required_field_defects (now : string) (proposal : dict)
    (field : string) (expected_type : pytype) :
  In (field, expected_type) _REQUIRED_FIELDS ->
  (lookup proposal field = None ->
     In ("Missing required field: '" ++ field ++ "'")
        (errors (run now proposal))
     /\ valid (run now proposal) = false)
  /\ (forall v,
        lookup proposal field = Some v ->
        isinstance v expected_type = false ->
        In ("Field '" ++ field ++ "' must be " ++ class_name expected_type
            ++ ", got " ++ type_name v)
           (errors (run now proposal))
        /\ valid (run now proposal) = false)
  /\ (lookup proposal field = Some (VList []) ->
      expected_type = Tlist ->
      In ("Field '" ++ field ++ "' must not be empty")
         (errors (run now proposal))
      /\ valid (run now proposal) = false).
Proof.
  intros Hin.
  assert (Hreport : forall msg,
             check_field proposal [] (field, expected_type) = [msg] ->
             In msg (errors (run now proposal))
             /\ valid (run now proposal) = false).
  { intros msg Hmsg.
    pose proof (required_field_finding now proposal field expected_type msg
                  Hin Hmsg) as H.
    split; [exact H | exact (invalid_of_error now proposal msg H)]. }
  split; [| split].
  - intros Hnone. apply Hreport. unfold check_field. now rewrite Hnone.
  - intros v Hsome Htype. apply Hreport. unfold check_field.
    now rewrite Hsome, Htype.
  - intros Hsome ->. apply Hreport. unfold check_field. now rewrite Hsome.
Qed.

Lemma required_field_defects_witness :
  In "Missing required field: 'title'"
     (errors (run "t" [ ("phases", VList []) ]))
  /\ valid (run "t" [ ("phases", VList []) ]) = false.
Proof.
  apply (proj1 (required_field_defects "t" [ ("phases", VList []) ]
                  "title" Tstr ltac:(simpl; tauto))).
  reflexivity.
Defined.

(** X19. A defect of a phase is reported with the index of the phase
    and makes the report invalid: an entry that is not a dict, and a
    dict that lacks some of the keys [name], [steps], [outputs], the
    missing keys being listed in alphabetical order. *)
Theorem phase_defects (now : string) (proposal : dict)
    (phases : list value) (i : nat) (phase : value) :
  lookup proposal "phases" = Some (VList phases) ->
  nth_error phases i = Some phase ->
  (isinstance phase Tdict = false ->
     In ("Phase[" ++ Text.decimal i ++ "] must be a dict")
        (errors (run now proposal))
     /\ valid (run now proposal) = false)
  /\ (forall fields,
        phase = VDict fields ->
        missing_keys fields <> [] ->
        In ("Phase[" ++ Text.decimal i ++ "] missing keys: "
            ++ Text.repr_list (map Text.repr (Text.sorted (missing_keys fields))))
           (errors (run now proposal))
        /\ valid (run now proposal) = false).
Proof.
  intros Hphases Hnth.
  assert (Hreport : forall msg,
             In msg (fst (check_phase i phase ([], []))) ->
             In msg (errors (run now proposal))
             /\ valid (run now proposal) = false).
  { intros msg Hmsg.
    assert (H : In msg (errors (run now proposal))).
    { rewrite run_errors. apply in_or_app. right.
      unfold get. rewrite Hphases. cbn [_check_phases].
      now apply (proj1 (findings_at phases i 0 phase Hnth)). }
    split; [exact H | exact (invalid_of_error now proposal msg H)]. }
  split.
  - intros Htype. apply Hreport.
    destruct phase; try discriminate Htype; now left.
  - intros fields -> Hmissing. apply Hreport.
    cbn [check_phase]. destruct (missing_keys fields); [now elim Hmissing |].
    destruct (negb (truthy (get fields "steps" VNone))); now left.
Qed.

Lemma phase_defects_witness :
  In "Phase[1] missing keys: ['outputs', 'steps']"
     (errors (run "t" [ ("phases", VList [ VInt 0; VDict [ ("name", VStr "a") ] ]) ]))
  /\ valid (run "t" [ ("phases",
                       VList [ VInt 0; VDict [ ("name", VStr "a") ] ]) ])
     = false.
Proof.
  apply (proj2 (phase_defects "t"
                  [ ("phases", VList [ VInt 0; VDict [ ("name", VStr "a") ] ]) ]
                  [ VInt 0; VDict [ ("name", VStr "a") ] ] 1
                  (VDict [ ("name", VStr "a") ]) eq_refl eq_refl)
           [ ("name", VStr "a") ] eq_refl).
  discriminate.
Defined.

(** X20. A phase without steps is only warned about: a phase dict whose
    [steps] are missing or empty gives the warning that names its index
    and its name, and no error of its own. *)
Theorem phase_without_steps (now : string) (proposal : dict)
    (phases : list value) (i : nat) (fields : dict) :
  lookup proposal "phases" = Some (VList phases) ->
  nth_error phases i = Some (VDict fields) ->
  truthy (get fields "steps" VNone) = false ->
  In ("Phase[" ++ Text.decimal i ++ "] ('"
      ++ str (get fields "name" (VStr "?")) ++ "') has no steps")
     (warnings (run now proposal))
  /\ (has_key fields "name" = true -> has_key fields "steps" = true ->
      has_key fields "outputs" = true ->
      fst (check_phase i (VDict fields) ([], [])) = []).
Proof.
  intros Hphases Hnth Hsteps. split.
  - assert (Hget : get proposal "phases" (VList []) = VList phases)
      by (unfold get; now rewrite Hphases).
    destruct (run_warnings_start now proposal) as (others & ->).
    apply in_or_app. left. rewrite Hget. cbn [_check_phases].
    apply (proj2 (findings_at phases i 0 (VDict fields) Hnth)).
    cbn [check_phase]. rewrite Hsteps. cbn [negb].
    destruct (missing_keys fields); now left.
  - intros Hn Hs Ho. cbn [check_phase].
    rewrite (missing_keys_well_formed fields)
      by (repeat constructor; assumption).
    now destruct (negb (truthy (get fields "steps" VNone))).
Qed.

Lemma phase_without_steps_witness :
  In "Phase[0] ('Analysis') has no steps"
     (warnings
        (run "t" [ ("phases",
                    VList [ VDict [ ("name", VStr "Analysis");
                                    ("steps", VList []);
                                    ("outputs", VList []) ] ]) ])).
Proof.
  apply (phase_without_steps "t"
           [ ("phases",
              VList [ VDict [ ("name", VStr "Analysis");
                              ("steps", VList []);
                              ("outputs", VList []) ] ]) ]
           [ VDict [ ("name", VStr "Analysis");
                     ("steps", VList []);
                     ("outputs", VList []) ] ]
           0
           [ ("name", VStr "Analysis"); ("steps", VList []);
             ("outputs", VList []) ]
           eq_refl eq_refl eq_refl).
Defined.

Lemma check_field_silent (proposal : dict) (field : string)
    (expected_type : pytype) :
  check_field proposal [] (field, expected_type) = [] ->
  exists v,
    lookup proposal field = Some v
    /\ isinstance v expected_type = true
    /\ (expected_type = Tlist -> truthy v = true).
Proof.
  unfold check_field, append.
  destruct (lookup proposal field) as [v |]; [| discriminate].
  destruct (isinstance v expected_type) eqn:Et; cbn [negb]; [| discriminate].
  intros H. exists v. split; [reflexivity | split; [exact Et |]].
  intros ->. cbn [andb] in H.
  destruct (truthy v); [reflexivity | discriminate H].
Qed.

Lemma well_formed_of_silent (i : nat) (phase : value) :
  fst (check_phase i phase ([], [])) = [] -> well_formed_phase phase.
Proof.
  destruct phase as [| b | n | s | items | fields]; try discriminate.
  cbn [check_phase]. intros H. exists fields. split; [reflexivity |].
  assert (Hmissing : missing_keys fields = []).
  { destruct (missing_keys fields); [reflexivity |].
    destruct (negb (truthy (get fields "steps" VNone))); discriminate H. }
  unfold missing_keys, _PHASE_REQUIRED_KEYS in Hmissing.
  cbn [filter] in Hmissing.
  destruct (has_key fields "name") eqn:E1; [| discriminate Hmissing].
  destruct (has_key fields "steps") eqn:E2; [| discriminate Hmissing].
  destruct (has_key fields "outputs") eqn:E3; [| discriminate Hmissing].
  repeat constructor; assumption.
Qed.

Lemma well_formed_of_no_error (phases : list value) :
  forall i,
  fst (check_phases_from i phases ([], [])) = [] ->
  Forall well_formed_phase phases.
Proof.
  induction phases as [| phase phases IH]; intros i H; [constructor |].
  rewrite check_phases_cons in H. cbn [fst] in H.
  apply app_eq_nil in H. destruct H as [Hfirst Hrest].
  constructor; [now apply (well_formed_of_silent i) | now apply (IH (S i))].
Qed.

(** X21. The reports with [valid = true] are exactly those of the
    proposals in which [title] is a string, [phases], [resources] and
    [validation_gates] are non-empty lists, and every phase is a dict
    carrying [name], [steps] and [outputs]. *)
Theorem valid_iff_well_formed (now : string) (proposal : dict) :
  valid (run now proposal) = true
  <-> exists title phases resources gates,
        lookup proposal "title" = Some (VStr title)
        /\ lookup proposal "phases" = Some (VList phases)
        /\ lookup proposal "resources" = Some (VList resources)
        /\ lookup proposal "validation_gates" = Some (VList gates)
        /\ phases <> [] /\ resources <> [] /\ gates <> []
        /\ Forall well_formed_phase phases.
Proof.
  split.
  - intros Hvalid. apply valid_iff_no_errors in Hvalid.
    rewrite run_errors in Hvalid. apply app_eq_nil in Hvalid.
    destruct Hvalid as [Hfields Hphases].
    unfold _REQUIRED_FIELDS in Hfields. cbn [flat_map] in Hfields.
    apply app_eq_nil in Hfields. destruct Hfields as [Ht Hfields].
    apply app_eq_nil in Hfields. destruct Hfields as [Hp Hfields].
    apply app_eq_nil in Hfields. destruct Hfields as [Hr Hfields].
    apply app_eq_nil in Hfields. destruct Hfields as [Hg _].
    apply check_field_silent in Ht, Hp, Hr, Hg.
    destruct Ht as (vt & Hlt & Hit & _).
    destruct Hp as (vp & Hlp & Hip & Htp).
    destruct Hr as (vr & Hlr & Hir & Htr).
    destruct Hg as (vg & Hlg & Hig & Htg).
    destruct vt as [| | | title | |]; try discriminate Hit.
    destruct vp as [| | | | phases |]; try discriminate Hip.
    destruct vr as [| | | | resources |]; try discriminate Hir.
    destruct vg as [| | | | gates |]; try discriminate Hig.
    exists title, phases, resources, gates.
    specialize (Htp eq_refl). specialize (Htr eq_refl). specialize (Htg eq_refl).
    repeat split; try assumption.
    + intros ->. discriminate Htp.
    + intros ->. discriminate Htr.
    + intros ->. discriminate Htg.
    + unfold get in Hphases. rewrite Hlp in Hphases.
      now apply (well_formed_of_no_error phases 0).
  - intros (title & phases & resources & gates
            & Ht & Hp & Hr & Hg & Hnp & Hnr & Hng & Hwf).
    apply valid_iff_no_errors.
    destruct (run_well_formed now proposal title phases resources gates
                Ht Hp Hnp Hwf Hr Hg) as (_ & _ & -> & _).
    destruct resources; [now elim Hnr |].
    destruct gates; [now elim Hng | reflexivity].
Qed.

End ValidatorMore.

(* ================================================================== *)
(** * Further properties of the generator                               *)
(* ================================================================== *)

Section GeneratorMore.

Import Workspace Py ProposalGeneratorTool Spec.



Lemma lstrip_fixed (s : string) : starts_clean s = true -> Text.lstrip s = s.
Proof.
  destruct s as [| c s]; [reflexivity |]. cbn [starts_clean Text.lstrip].
  now destruct (Text.is_space c).
Qed.

Lemma lstrip_clean (s : string) : starts_clean (Text.lstrip s) = true.
Proof.
  induction s as [| c s IH]; [reflexivity |]. cbn [Text.lstrip].
  destruct (Text.is_space c) eqn:E; [exact IH |].
  cbn [starts_clean]. now rewrite E.
Qed.

Lemma rstrip_clean (s : string) :
  starts_clean s = true -> starts_clean (Text.rstrip s) = true.
Proof.
  destruct s as [| c s]; [reflexivity |]. cbn [starts_clean Text.rstrip].
  intros H. destruct (Text.rstrip s); [| exact H].
  destruct (Text.is_space c) eqn:Ec; [reflexivity |].
  cbn [starts_clean]. now rewrite Ec.
Qed.

Lemma rstrip_idempotent (s : string) :
  Text.rstrip (Text.rstrip s) = Text.rstrip s.
Proof.
  induction s as [| c s IH]; [reflexivity |]. cbn [Text.rstrip].
  destruct (Text.rstrip s) as [| d kept] eqn:E.
  - destruct (Text.is_space c) eqn:Ec; [reflexivity |].
    cbn [Text.rstrip]. now rewrite Ec.
  - change (Text.rstrip (String c (String d kept)))
      with (match Text.rstrip (String d kept) with
            | EmptyString =>
                if Text.is_space c then EmptyString else String c EmptyString
            | String e more => String c (String e more)
            end).
    now rewrite IH.
Qed.


(** [strip] does nothing to a text it has stripped. *)
Lemma strip_idempotent (s : string) :
  Text.strip (Text.strip s) = Text.strip s.
Proof.
  unfold Text.strip.
  rewrite (lstrip_fixed (Text.rstrip (Text.lstrip s)))
    by apply rstrip_clean, lstrip_clean.
  apply rstrip_idempotent.
Qed.








(** X23. Leading and trailing whitespace of the description does not
    count: the generator gives the same result, proposal or error, for
    a description and for that description stripped. *)
Theorem generator_ignores_outer_whitespace (now task_description : string) :
  run now (Text.strip task_description) = run now task_description.
Proof.
  unfold run. rewrite strip_idempotent.
  destruct (Text.nonempty (Text.strip task_description)) eqn:E;
    cbn [negb orb].
  - destruct task_description; [discriminate E | reflexivity].
  - now rewrite orb_true_r.
Qed.





Lemma phases_complete (phases : list value) :
  Forall (fun phase =>
            exists fields,
              phase = VDict fields
              /\ ValidationWorkflowTool.missing_keys fields = []
              /\ truthy (get fields "steps" VNone) = true) phases ->
  forall i acc,
    ValidationWorkflowTool.check_phases_from i phases acc = acc.
Proof.
  induction 1 as [| phase phases (fields & -> & Hkeys & Hsteps) _ IH];
    intros i [errors warnings]; [reflexivity |].
  cbn [ValidationWorkflowTool.check_phases_from
       ValidationWorkflowTool.check_phase].
  rewrite Hkeys, Hsteps. cbn [negb]. apply IH.
Qed.

(** X25. A generated proposal passes the validator cleanly: the report
    has no error and no warning. *)
Theorem generated_proposal_clean
    (now now' task_description : string) (proposal : dict) :
  run now task_description = Ok proposal ->
  ValidationWorkflowTool.errors (ValidationWorkflowTool.run now' proposal) = []
  /\ ValidationWorkflowTool.warnings (ValidationWorkflowTool.run now' proposal)
     = [].
Proof.
  unfold run.
  destruct (negb (Text.nonempty task_description)
            || negb (Text.nonempty (Text.strip task_description)));
    [discriminate |].
  intros H. injection H as <-.
  destruct (infer_resources_two (Text.strip task_description)) as (more & Hres).
  unfold ValidationWorkflowTool.run,
    ValidationWorkflowTool._check_required_fields,
    ValidationWorkflowTool._REQUIRED_FIELDS,
    ValidationWorkflowTool._check_phases, get.
  cbn [fold_left ValidationWorkflowTool.check_field lookup String.eqb
       Ascii.eqb Bool.eqb isinstance negb andb truthy map str_list
       _build_phases _build_validation_gates].
  rewrite Hres. cbn [map truthy negb andb].
  rewrite phases_complete.
  - split; reflexivity.
  - repeat constructor; eexists; (split; [reflexivity | split; reflexivity]).
Qed.

Lemma generated_proposal_clean_witness :
  ValidationWorkflowTool.errors
    (ValidationWorkflowTool.run "u"
       [ ("title", VStr "Add metrics");
         ("phases", VList (map VDict (_build_phases "Add metrics")));
         ("resources", str_list (_infer_resources "Add metrics"));
         ("validation_gates", str_list (_build_validation_gates "Add metrics"));
         ("generated_at", VStr "t") ]) = []
  /\ ValidationWorkflowTool.warnings
       (ValidationWorkflowTool.run "u"
          [ ("title", VStr "Add metrics");
            ("phases", VList (map VDict (_build_phases "Add metrics")));
            ("resources", str_list (_infer_resources "Add metrics"));
            ("validation_gates",
             str_list (_build_validation_gates "Add metrics"));
            ("generated_at", VStr "t") ]) = [].
Proof.
  apply (generated_proposal_clean "t" "u" "Add metrics").
  vm_compute. reflexivity.
Defined.

End GeneratorMore.

(* ================================================================== *)
(** * The memory query                                                  *)
(* ================================================================== *)

Section MemoryQuery.

Import Workspace MemoryQueryTool Spec.

(** The unit tests of the query. *)
Example test_memory_query_tool :
  run "" "operational" (NotDirectory test_notes) = []
  /\ run "   " "operational" (NotDirectory test_notes) = []
  /\ run "query" "operational" (NotDirectory Missing) = []
  /\ run "database" "operational" (NotDirectory test_notes)
     = [ "entry about database migrations" ]
  /\ run "caching" "operational" (NotDirectory test_notes) = []
  /\ run "API" "operational" (Directory test_notes)
     = [ "entry about api endpoints" ].
Proof. vm_compute. repeat split. Qed.



































End MemoryQuery.
